(** * Email intake pipeline of the classifier service (lambda-simple-flags.js)

    Shallow embedding of the rule tables, the domain matcher, the sender
    history lookup, the learned-pattern lookup, the AI classifier wrapper and
    the per-email loop of [exports.handler], followed by the properties
    established about them.

    Conventions.
    - JavaScript strings are modelled by [string]; [toLowerCase] folds the
      ASCII letters only.
    - JavaScript numbers that carry confidences and response rates are
      modelled by exact rationals [Q].
    - External collaborators (Microsoft Graph, OpenAI, the response webhook,
      the SQL engine answering aggregate queries) are answered by an
      environment record [Env]; every call that reaches one of them is logged
      in the [trace] of the world.
    - A rejected promise / thrown exception is the outcome [Thrown] of the
      monad [M]. *)

From Stdlib Require Import Bool Arith NArith ZArith List Ascii String DecimalString QArith Qminmax Lia.
Import ListNotations.
Open Scope string_scope.
Open Scope bool_scope.

(** ** JavaScript string helpers *)

Module Js.

(** [s.startsWith(p)] *)
Definition startsWith (s p : string) : bool := String.prefix p s.

(** [s.includes(needle)] *)
Fixpoint includes (s needle : string) : bool :=
  String.prefix needle s ||
  match s with
  | EmptyString => false
  | String _ t => includes t needle
  end.

(** [s.endsWith(suffix)] *)
Fixpoint endsWith (s suffix : string) : bool :=
  String.eqb s suffix ||
  match s with
  | EmptyString => false
  | String _ t => endsWith t suffix
  end.

Definition lowerChar (c : ascii) : ascii :=
  let n := nat_of_ascii c in
  if (65 <=? n)%nat && (n <=? 90)%nat then ascii_of_nat (n + 32) else c.

(** [s.toLowerCase()] on ASCII text *)
Fixpoint toLowerCase (s : string) : string :=
  match s with
  | EmptyString => EmptyString
  | String c t => String (lowerChar c) (toLowerCase t)
  end.

(** [s.split(sep)] for a one-character separator *)
Fixpoint split (sep : ascii) (s : string) : list string :=
  match s with
  | EmptyString => [EmptyString]
  | String c t =>
      if Ascii.eqb c sep then EmptyString :: split sep t
      else match split sep t with
           | [] => [String c EmptyString]
           | h :: r => String c h :: r
           end
  end.

(** [s.slice(0, n)] *)
Definition slice0 (n : nat) (s : string) : string := String.substring 0 n s.

(** [x || ''] for an optional string *)
Definition orEmpty (o : option string) : string :=
  match o with Some s => s | None => EmptyString end.

(** truthiness of a string: the empty string is falsy *)
Definition truthy (s : string) : bool := negb (String.eqb s EmptyString).

(** [arr.includes(x)] on an array of strings *)
Definition arrayIncludes (arr : list string) (x : string) : bool :=
  existsb (String.eqb x) arr.

(** [span p s]: the longest prefix of [s] whose characters satisfy [p],
    and the rest. *)
Fixpoint span (p : ascii -> bool) (s : string) : string * string :=
  match s with
  | EmptyString => (EmptyString, EmptyString)
  | String c t =>
      if p c then let (a, r) := span p t in (String c a, r)
      else (EmptyString, s)
  end.

End Js.

(** ** Configuration tables *)

(** Classifications that should be flagged *)
Definition CLASSIFICATIONS_TO_FLAG : list string :=
  [ "ANGRY_CUSTOMER"; "COMPLAINT"; "URGENT_REQUEST"; "QUOTE_REQUEST";
    "NEW_LEAD"; "PURCHASE_INTENT"; "PRICING_INQUIRY"; "GENERAL_INQUIRY";
    "PRODUCT_QUESTION"; "CUSTOMER_SUPPORT_REQUEST"; "TESTIMONIAL";
    "THANK_YOU"; "PURCHASE_ORDER_FORWARD" ].

(** Classifications to skip/discard *)
Definition CLASSIFICATIONS_TO_SKIP : list string :=
  [ "SPAM_PHISHING"; "MARKETING_PROMOTIONAL"; "OUT_OF_OFFICE";
    "SYSTEM_NOTIFICATION"; "PERSONAL_INTERNAL"; "NEWSLETTER_SIGNUP";
    "VENDOR_BUSINESS"; "AMAZON_NOTIFICATION"; "FREIGHT_NOTIFICATION";
    "PAYMENT_NOTIFICATION"; "SURVEY_RESPONSE" ].

(** System notification domains to auto-skip *)
Definition SYSTEM_DOMAINS : list string :=
  [ "amazon.com"; "amazonservices.com"; "marketplace.amazon.com";
    "sellercentral.amazon.com"; "shopify.com"; "shop.app";
    "fedex.com"; "ups.com"; "xpo.com"; "odfl.com"; "yrc.com";
    "estes-express.com"; "rlcarriers.com"; "saia.com"; "abf.com";
    "lojistic.com";
    "stripe.com"; "paypal.com"; "square.com"; "authorize.net"; "bill.com";
    "klaviyo.com"; "mailchimp.com"; "constantcontact.com"; "ndia.org";
    "tiktok.com"; "tiktokshop.com"; "linkedin.com"; "yotpo.com";
    "ccsend.com"; "github.com"; "vercel.com"; "eventbrite.com";
    "canva.com"; "emmerandrye.com"; "shipstation.com" ].

(** One entry of [AUTO_SKIP_RULES] / [AUTO_FLAG_RULES].  A field that the
    object literal leaves out is [None] (or [false] for [matchAll]). *)
Record Rule := mkRule {
  rule_name : string;
  rule_classification : string;
  rule_reason : string;
  rule_addresses : option (list string);
  rule_domains : option (list string);
  rule_subjectKeywords : option (list string);
  rule_matchAll : bool;
  rule_confidence : option Q
}.

Definition skipRule (name cls reason : string) (domains : list string)
    (kw : option (list string)) : Rule :=
  mkRule name cls reason None (Some domains) kw false None.

(** Known safe senders that should never be flagged *)
Definition AUTO_SKIP_RULES : list Rule :=
  [ skipRule "TikTok Shop Support Survey" "SYSTEM_NOTIFICATION"
      "Automatic feedback request from TikTok Shop support"
      ["tiktok.com"; "tiktokshop.com"]
      (Some ["support"; "ticket"; "onboarding"; "feedback";
             "rate your experience"]);
    skipRule "LinkedIn Notifications" "MARKETING_PROMOTIONAL"
      "LinkedIn marketing or notification email" ["linkedin.com"] None;
    skipRule "Yotpo Review Requests" "SYSTEM_NOTIFICATION"
      "Automated Yotpo review system message" ["yotpo.com"] None;
    skipRule "Constant Contact Marketing" "MARKETING_PROMOTIONAL"
      "Newsletter sent via Constant Contact"
      ["ccsend.com"; "constantcontact.com"] None;
    skipRule "GitHub Notifications" "SYSTEM_NOTIFICATION"
      "Automated GitHub notification" ["github.com"] None;
    skipRule "Eventbrite Marketing" "MARKETING_PROMOTIONAL"
      "Eventbrite marketing or promotional campaign" ["eventbrite.com"] None;
    skipRule "Canva Notifications" "MARKETING_PROMOTIONAL"
      "Automated Canva account or marketing notification" ["canva.com"] None;
    skipRule "Emmer and Rye Hospitality" "MARKETING_PROMOTIONAL"
      "Hospitality group marketing or community announcement"
      ["emmerandrye.com"] None;
    skipRule "ShipStation Tracking" "SYSTEM_NOTIFICATION"
      "Automated shipment or tracking update from ShipStation"
      ["shipstation.com"]
      (Some ["tracking"; "shipment"; "fulfillment"; "package"]);
    mkRule "Automatic Reply Subject" "OUT_OF_OFFICE"
      "Automatic reply detected in subject line"
      None None
      (Some ["automatic reply:"; "automatic reply"; "auto reply";
             "autoreply"; "out of office"; "out-of-office"])
      true None ].

(** The only entry of [AUTO_FLAG_RULES]. *)
Definition shopifyMailerAlerts : Rule :=
  mkRule "Shopify Mailer Alerts" "CUSTOMER_SUPPORT_REQUEST"
    "Shopify order or fulfillment notification requiring follow-up"
    (Some ["mailer@shopify.com"]) (Some ["shopify.com"]) None false
    (Some (95 # 100)).

(** Known senders that should be flagged automatically *)
Definition AUTO_FLAG_RULES : list Rule := [ shopifyMailerAlerts ].

(** ** Incoming message summaries *)

(** A message summary as listed by Microsoft Graph.  An optional field is a
    property that may be missing or null; [email_hasAttachments] is
    [email.hasAttachments === true]. *)
Record Email := mkEmail {
  email_id : string;
  email_internetMessageId : option string;
  email_subject : option string;
  email_fromAddress : option string;
  email_fromName : option string;
  email_bodyPreview : option string;
  email_hasAttachments : bool;
  email_conversationId : option string
}.

(** ** Rule matchers *)

Definition matchesDomain (senderDomain domain : string) : bool :=
  if negb (Js.truthy senderDomain) || negb (Js.truthy domain) then false
  else String.eqb senderDomain domain
       || Js.endsWith senderDomain ("." ++ domain).

Definition isSystemNotificationDomain (senderDomain : string) : bool :=
  existsb (fun domain => matchesDomain senderDomain domain) SYSTEM_DOMAINS.

(** [email.from?.emailAddress?.address?.toLowerCase() || ''] *)
Definition lowerSender (email : Email) : string :=
  Js.orEmpty (option_map Js.toLowerCase (email_fromAddress email)).

(** [s.includes('@') ? s.split('@')[1] : ''] *)
Definition domainOf (senderEmail : string) : string :=
  if Js.includes senderEmail "@"
  then Js.orEmpty (nth_error (Js.split "@" senderEmail) 1)
  else EmptyString.

(** [email.subject?.toLowerCase() || ''] *)
Definition lowerSubject (email : Email) : string :=
  Js.orEmpty (option_map Js.toLowerCase (email_subject email)).

(** [rule.domains?.some(domain => matchesDomain(senderDomain, domain)) || false] *)
Definition ruleDomainMatch (rule : Rule) (senderDomain : string) : bool :=
  match rule_domains rule with
  | Some ds => existsb (fun domain => matchesDomain senderDomain domain) ds
  | None => false
  end.

(** [rule.addresses?.includes(senderEmail) || false] *)
Definition ruleAddressMatch (rule : Rule) (senderEmail : string) : bool :=
  match rule_addresses rule with
  | Some addrs => Js.arrayIncludes addrs senderEmail
  | None => false
  end.

(** [rule.subjectKeywords && !rule.subjectKeywords.some(k => subject.includes(k))] *)
Definition ruleKeywordsMiss (rule : Rule) (subject : string) : bool :=
  match rule_subjectKeywords rule with
  | Some kws => negb (existsb (fun keyword => Js.includes subject keyword) kws)
  | None => false
  end.

(** The body of the [for (const rule of ...)] loop shared by
    [getAutoSkipRule] and [getAutoFlagRule]: the first rule that is not
    skipped by one of the two [continue] statements. *)
Fixpoint firstRule (rules : list Rule) (senderEmail senderDomain subject : string)
  : option Rule :=
  match rules with
  | [] => None
  | rule :: rest =>
      let domainMatch := ruleDomainMatch rule senderDomain in
      let addressMatch := ruleAddressMatch rule senderEmail in
      if negb (rule_matchAll rule) && negb domainMatch && negb addressMatch
      then firstRule rest senderEmail senderDomain subject
      else if ruleKeywordsMiss rule subject
      then firstRule rest senderEmail senderDomain subject
      else Some rule
  end.

Definition getAutoSkipRule (email : Email) : option Rule :=
  let senderEmail := lowerSender email in
  if negb (Js.truthy senderEmail) then None
  else firstRule AUTO_SKIP_RULES senderEmail (domainOf senderEmail)
         (lowerSubject email).

Definition getAutoFlagRule (email : Email) : option Rule :=
  let senderEmail := lowerSender email in
  if negb (Js.truthy senderEmail) then None
  else firstRule AUTO_FLAG_RULES senderEmail (domainOf senderEmail)
         (lowerSubject email).

Definition isLowerAlnum (c : ascii) : bool :=
  let n := nat_of_ascii c in
  ((97 <=? n)%nat && (n <=? 122)%nat) || ((48 <=? n)%nat && (n <=? 57)%nat).

Definition isHexOrDash (c : ascii) : bool :=
  let n := nat_of_ascii c in
  ((97 <=? n)%nat && (n <=? 102)%nat) || ((48 <=? n)%nat && (n <=? 57)%nat)
  || (n =? 45)%nat.

(** A match of [/[a-z0-9]+\+[a-f0-9\-]+@marketplace\.amazon\.com/] that
    starts at the first character of [s].  Neither ["+"] nor ["@"] belongs to
    the class before it, so each run is the longest one. *)
Definition relayAt (s : string) : bool :=
  let (a, r) := Js.span isLowerAlnum s in
  Js.truthy a &&
  match r with
  | String "+"%char r' =>
      let (b, r'') := Js.span isHexOrDash r' in
      Js.truthy b && Js.startsWith r'' "@marketplace.amazon.com"
  | _ => false
  end.

(** [from.match(/[a-z0-9]+\+[a-f0-9\-]+@marketplace\.amazon\.com/)] *)
Fixpoint matchesMarketplaceRelay (s : string) : bool :=
  relayAt s ||
  match s with
  | EmptyString => false
  | String _ t => matchesMarketplaceRelay t
  end.

(** Check if an email is from Amazon *)
Definition isAmazonEmail (email : Email) : bool :=
  let from := lowerSender email in
  let senderName := Js.orEmpty (option_map Js.toLowerCase (email_fromName email)) in
  let subject := lowerSubject email in
  let body := Js.orEmpty (option_map Js.toLowerCase (email_bodyPreview email)) in
  if Js.includes from "@amazon.com"
     || Js.includes from "@amazonservices.com"
     || Js.includes from "@marketplace.amazon.com"
     || Js.includes from "marketplace.amazon" then true
  else if Js.includes senderName "amazon"
     || Js.includes senderName "seller central"
     || Js.includes senderName "marketplace" then true
  else if matchesMarketplaceRelay from then true
  else if Js.includes body "spc-usamazon-"
     || Js.includes body "seller central"
     || Js.includes body "amazon services"
     || Js.includes body "a-to-z guarantee"
     || Js.includes body "amazon.com"
     || Js.includes body "marketplace.amazon" then true
  else if Js.includes subject "a-to-z guarantee"
     || Js.includes subject "return request"
     || Js.includes subject "you have received a message"
     || Js.includes subject "amazon"
     || Js.includes subject "seller central"
     || Js.includes subject "[commMgrTok:" then true
  else false.

(** ** Verdicts, sender history and learned patterns *)

Inductive Priority := high | medium | low.

(** The object returned by [getSenderHistory]. *)
Inductive SenderHistory :=
| SenderSnapshot (email : string) (totalEmails : N) (responseRate : Q)
    (avgResponseTime : Q) (priority : Priority)
| DomainSnapshot (domain : option string) (totalEmails : N)
    (responseRate : Q) (priority : Priority).

(** One row of an aggregate query ([COUNT( * )], [AVG(...)], [AVG(...)]);
    an SQL NULL is [None]. *)
Record AggRow := mkAgg {
  agg_totalEmails : N;
  agg_responseRate : option Q;
  agg_avgResponseTime : option Q
}.

(** One row of [email_classifier_patterns]. *)
Record PatternRow := mkPattern {
  patternType : option string;
  patternValue : option string;
  typicalClassification : option string;
  occurrenceCount : option N
}.

(** What an awaited query gives: a rejection or the rows. *)
Inductive QueryResult (A : Type) :=
| QueryError
| QueryRows (rows : list A).
Arguments QueryError {A}.
Arguments QueryRows {A} rows.

(** The [classification] variable of the handler: an object with the three
    properties the handler reads; a property that is missing is [None]. *)
Record Classification := mkCls {
  cls_classification : option string;
  cls_confidence : option Q;
  cls_reasoning : option string
}.

(** The value of [JSON.parse(responseText)] as far as the handler can tell:
    [null], or a value whose three properties are read (a value without a
    property, such as a number or an array, has all three missing). *)
Inductive JsonValue :=
| JsonNull
| JsonFields (c : Classification).

(** What the completion request to OpenAI comes to. *)
Inductive AiOutcome :=
| TransportError      (* the request rejects, or the response has no
                         choices[0].message *)
| EmptyCompletion                      (* no text, or only white space *)
| NonJsonCompletion (responseText : string)   (* JSON.parse throws *)
| JsonCompletion (parsed : JsonValue).

(** The object returned by [checkLearnedPatterns]. *)
Record LearnedPattern := mkLearned {
  lp_classification : option string;
  lp_shouldFlag : bool;
  lp_confidence : Q;
  lp_reasoning : string
}.

Definition Qltb (a b : Q) : bool := negb (Qle_bool b a).

(** [Number(x || 0)] and the coercion of NULL in a comparison *)
Definition numberOr0 (o : option Q) : Q :=
  match o with Some q => q | None => 0 end.

Definition senderPriority (responseRate : option Q) : Priority :=
  if Qltb (7 # 10) (numberOr0 responseRate) then high
  else if Qltb (numberOr0 responseRate) (2 # 10) then low
  else medium.

Definition domainPriority (responseRate : option Q) : Priority :=
  if Qltb (6 # 10) (numberOr0 responseRate) then high
  else if Qltb (numberOr0 responseRate) (3 # 10) then low
  else medium.

(** Check sender response history from feedback data.  [senderStats] and
    [domainStats] are the answers of the store to the two aggregate queries
    (the second is asked for [senderEmail.split('@')[1]]). *)
Definition getSenderHistory
    (senderStats : string -> QueryResult AggRow)
    (domainStats : option string -> QueryResult AggRow)
    (senderEmail : string) : option SenderHistory :=
  if negb (Js.truthy senderEmail) then None
  else
    let senderDomain := nth_error (Js.split "@" senderEmail) 1 in
    match senderStats senderEmail with
    | QueryError => None
    | QueryRows sRows =>
        match domainStats senderDomain with
        | QueryError => None
        | QueryRows dRows =>
            let sender := nth_error sRows 0 in
            let domain := nth_error dRows 0 in
            match sender with
            | Some s =>
                if (2 <=? agg_totalEmails s)%N then
                  Some (SenderSnapshot senderEmail (agg_totalEmails s)
                          (numberOr0 (agg_responseRate s))
                          (numberOr0 (agg_avgResponseTime s))
                          (senderPriority (agg_responseRate s)))
                else
                  match domain with
                  | Some d =>
                      if (5 <=? agg_totalEmails d)%N then
                        Some (DomainSnapshot senderDomain (agg_totalEmails d)
                                (numberOr0 (agg_responseRate d))
                                (domainPriority (agg_responseRate d)))
                      else None
                  | None => None
                  end
            | None =>
                match domain with
                | Some d =>
                    if (5 <=? agg_totalEmails d)%N then
                      Some (DomainSnapshot senderDomain (agg_totalEmails d)
                              (numberOr0 (agg_responseRate d))
                              (domainPriority (agg_responseRate d)))
                    else None
                | None => None
                end
            end
        end
    end.

Definition showN (n : N) : string :=
  DecimalString.NilEmpty.string_of_uint (N.to_uint n).

Definition showNullable (o : option string) : string :=
  match o with Some s => s | None => "null" end.

(** Check learned patterns.  [patterns] is the answer of the store to the
    query ordered by occurrence count, descending, limited to one row. *)
Definition checkLearnedPatterns
    (patterns : string -> option string -> QueryResult PatternRow)
    (email : Email) : option LearnedPattern :=
  match option_map Js.toLowerCase (email_fromAddress email) with
  | None => None
  | Some senderEmail =>
      if negb (Js.truthy senderEmail) then None
      else
        let senderDomain := nth_error (Js.split "@" senderEmail) 1 in
        match patterns senderEmail senderDomain with
        | QueryError => None
        | QueryRows pattern =>
            match pattern with
            | p0 :: _ =>
                match occurrenceCount p0 with
                | Some n =>
                    if (3 <=? n)%N then
                      let shouldFlag :=
                        match typicalClassification p0 with
                        | Some c => Js.arrayIncludes CLASSIFICATIONS_TO_FLAG c
                        | None => false
                        end in
                      Some (mkLearned (typicalClassification p0) shouldFlag
                              (Qmin (9 # 10)
                                 ((6 # 10) + inject_Z (Z.of_N n) * (5 # 100)))
                              ("Based on " ++ showN n
                                 ++ " previous emails from this "
                                 ++ showNullable (patternType p0)))
                    else None
                | None => None
                end
            | [] => None
            end
        end
  end.

(** ** Persistence, effects and the world *)

Record ThreadInfo := mkThread { isReply : bool; threadLength : nat }.

Record EmailContent := mkContent {
  bodyText : string;
  bodyHtml : option string;
  bodyPreview : string
}.

(** The object serialised into the [error] column. *)
Inductive ErrorMeta :=
| RuleMeta (reasoning : string) (rule : option string)
| VerdictMeta (justification : option string) (confidence : option Q).

(** The object serialised into the [ai_factors] column.  The entities found
    by the text extractors (products, quantities, order and phone numbers,
    urgency, sentiment) and the message metadata are left out: they are
    computed from the preview alone and no decision reads them. *)
Inductive AiFactors :=
| AutoSkipFactors (reason rule senderDomain : string)
| AmazonFactors
| SystemDomainFactors (domain : string)
| ClassifiedFactors (classification : option string)
    (senderHistory : option SenderHistory) (hasAttachments : bool)
    (fromDomain : string) (thread : ThreadInfo).

(** The values handed to [db.insert(processedEmails)]; a stored row is such
    a record that the table accepted. *)
Record ProcessedEmail := mkProcessed {
  pe_messageId : string;
  pe_internetMessageId : option string;
  pe_subject : option string;
  pe_senderEmail : option string;
  pe_classification : option string;
  pe_status : string;
  pe_flagged : bool;
  pe_error : ErrorMeta;
  pe_bodyText : option string;
  pe_bodyHtml : option string;
  pe_bodyPreview : option string;
  pe_aiReasoning : option string;
  pe_aiConfidence : option Q;
  pe_aiFactors : AiFactors
}.

(** The local [stats] object of a run, also the row of
    [email_classifier_processing_stats] (without the duration). *)
Record Stats := mkStats {
  processed : nat;
  flagged : nat;
  skipped : nat;
  discarded : nat;
  errors : nat
}.

Definition zeroStats : Stats := mkStats 0 0 0 0 0.

(** Requests that leave the process. *)
Inductive Effect :=
| GraphMarkRead (mailbox emailId : string)
| GraphFlag (mailbox emailId justification : string)
| GraphFetchBody (mailbox emailId : string)
| GraphListThread (mailbox conversationId : string)
| OpenAiCompletion (emailId : string)
| WebhookPost (messageId : string) (classification : option string).

Record World := mkWorld {
  processedEmails : list ProcessedEmail;
  processingStats : list Stats;
  trace : list Effect;
  stats : Stats
}.

(** Answers of the outside world during one pass.  The answers are fixed
    for an environment: [env_selectFails] says which lookups reject, and
    [env_senderStats] and [env_domainStats] are the aggregates over the
    feedback rows as they stand (the feedback table is written by the
    webhook endpoint, not by this file).  A later pass, in which a lookup
    may reject that succeeded before or the feedback has grown, is another
    environment. *)
Record Env := mkEnv {
  env_tokenFails : bool;
  env_SHARED_MAILBOX_ADDRESS : option string;
  env_unread : string -> option (list Email);
  env_selectFails : string -> bool;
  env_insertFails : string -> bool;
  env_statsInsertFails : bool;
  env_senderStats : list ProcessedEmail -> string -> QueryResult AggRow;
  env_domainStats : list ProcessedEmail -> option string -> QueryResult AggRow;
  env_patterns : string -> option string -> QueryResult PatternRow;
  env_threadLength : string -> string -> option nat;
  env_fetchEmailContent : string -> string -> EmailContent;
  env_openai : Email -> option SenderHistory -> AiOutcome;
  env_RESPONSE_WEBHOOK_URL : option string;
  env_webhookFails : string -> bool
}.

(** ** The monad of the handler: state and exceptions *)

Inductive Outcome (A : Type) :=
| Returned (a : A)
| Thrown.
Arguments Returned {A} a.
Arguments Thrown {A}.

Definition M (A : Type) : Type := World -> Outcome A * World.

Definition ret {A} (a : A) : M A := fun w => (Returned a, w).

Definition throw {A} : M A := fun w => (Thrown, w).

Definition bind {A B} (m : M A) (k : A -> M B) : M B :=
  fun w =>
    match m w with
    | (Returned a, w') => k a w'
    | (Thrown, w') => (Thrown, w')
    end.

(** [try { m } catch { h }] *)
Definition tryCatch {A} (m : M A) (h : M A) : M A :=
  fun w =>
    match m w with
    | (Returned a, w') => (Returned a, w')
    | (Thrown, w') => h w'
    end.

Declare Scope handler_scope.
Delimit Scope handler_scope with handler.
Notation "x <- m ;; k" := (bind m (fun x => k))
  (at level 61, m at next level, right associativity) : handler_scope.
Notation "m ;; k" := (bind m (fun _ => k))
  (at level 61, right associativity) : handler_scope.
Open Scope handler_scope.

Definition emit (e : Effect) : M unit :=
  fun w => (Returned tt,
            mkWorld (processedEmails w) (processingStats w)
                    (trace w ++ [e]) (stats w)).

Definition updStats (f : Stats -> Stats) : M unit :=
  fun w => (Returned tt,
            mkWorld (processedEmails w) (processingStats w)
                    (trace w) (f (stats w))).

Definition incProcessed (s : Stats) : Stats :=
  mkStats (S (processed s)) (flagged s) (skipped s) (discarded s) (errors s).
Definition incFlagged (s : Stats) : Stats :=
  mkStats (processed s) (S (flagged s)) (skipped s) (discarded s) (errors s).
Definition incSkipped (s : Stats) : Stats :=
  mkStats (processed s) (flagged s) (S (skipped s)) (discarded s) (errors s).
Definition incDiscarded (s : Stats) : Stats :=
  mkStats (processed s) (flagged s) (skipped s) (S (discarded s)) (errors s).
Definition incErrors (s : Stats) : Stats :=
  mkStats (processed s) (flagged s) (skipped s) (discarded s) (S (errors s)).

Definition hasMessageId (messageId : string) (r : ProcessedEmail) : bool :=
  String.eqb (pe_messageId r) messageId.

(** [db.select().from(processedEmails).where(messageId = id).limit(1)] *)
Definition selectExisting (env : Env) (messageId : string)
  : M (list ProcessedEmail) :=
  fun w =>
    if env_selectFails env messageId then (Thrown, w)
    else (Returned (firstn 1 (filter (hasMessageId messageId)
                                     (processedEmails w))), w).

(** [db.insert(processedEmails).values(row)]: the statement is rejected when
    the store fails, when [classification] (NOT NULL) is missing and when
    [message_id] (UNIQUE) is already present. *)
Definition insertProcessed (env : Env) (row : ProcessedEmail) : M unit :=
  fun w =>
    if env_insertFails env (pe_messageId row) then (Thrown, w)
    else match pe_classification row with
         | None => (Thrown, w)
         | Some _ =>
             if existsb (hasMessageId (pe_messageId row)) (processedEmails w)
             then (Thrown, w)
             else (Returned tt,
                   mkWorld (processedEmails w ++ [row]) (processingStats w)
                           (trace w) (stats w))
         end.

(** Mark email as read: a failed request is logged and swallowed. *)
Definition markAsRead (emailId mailbox : string) : M unit :=
  emit (GraphMarkRead mailbox emailId).

(** Apply flag to email in Outlook: a failed request is logged and
    swallowed (the boolean result is not read by the handler). *)
Definition applyFlag (emailId mailbox justification : string) : M unit :=
  emit (GraphFlag mailbox emailId justification).

(** Fetch full email content; the environment gives the object returned,
    which is the fixed placeholder content when the request fails. *)
Definition fetchEmailContent (env : Env) (emailId mailbox : string)
  : M EmailContent :=
  emit (GraphFetchBody mailbox emailId) ;;
  ret (env_fetchEmailContent env mailbox emailId).

(** Get thread information *)
Definition getThreadInfo (env : Env) (conversationId : option string)
    (mailbox : string) : M ThreadInfo :=
  match conversationId with
  | None => ret (mkThread false 1)
  | Some c =>
      if negb (Js.truthy c) then ret (mkThread false 1)
      else
        emit (GraphListThread mailbox c) ;;
        match env_threadLength env mailbox c with
        | Some n => ret (mkThread (1 <? n)%nat n)
        | None => ret (mkThread false 1)
        end
  end.

(** Call webhook to generate AI response for flagged email *)
Definition callResponseWebhook (env : Env) (messageId : string)
    (classification : option string) : M unit :=
  match env_RESPONSE_WEBHOOK_URL env with
  | None => ret tt
  | Some url =>
      if negb (Js.truthy url) then ret tt
      else
        emit (WebhookPost messageId classification) ;;
        if env_webhookFails env messageId then throw else ret tt
  end.

Definition fallbackVerdict : Classification :=
  mkCls (Some "CUSTOMER_SUPPORT_REQUEST") (Some (5 # 10))
        (Some "AI classification failed, defaulting to manual review").

(** AI classification with OpenAI.  One completion request is made; the
    prompt is a function of the email and of the sender history, which is
    what the environment is asked with.  Every failure inside the [try] is
    caught and falls through to the default. *)
Definition classifyEmail (env : Env) (email : Email)
    (senderHistory : option SenderHistory) : M JsonValue :=
  emit (OpenAiCompletion (email_id email)) ;;
  match env_openai env email senderHistory with
  | JsonCompletion parsed => ret parsed
  | TransportError => ret (JsonFields fallbackVerdict)
  | EmptyCompletion => ret (JsonFields fallbackVerdict)
  | NonJsonCompletion _ => ret (JsonFields fallbackVerdict)
  end.

(** ** The main email processor *)

(** What the first part of the loop body leaves for the second: either the
    iteration is over ([continue]) or [classification] and [senderHistory]
    are set. *)
Inductive Stage :=
| Continue
| Proceed (classification : JsonValue) (senderHistory : option SenderHistory).

Definition isNone {A} (o : option A) : bool :=
  match o with None => true | Some _ => false end.

(** [email.bodyPreview?.slice(0, 200)] *)
Definition previewSlice (email : Email) : option string :=
  option_map (Js.slice0 200) (email_bodyPreview email).

(** [arr.includes(classification.classification)] *)
Definition labelIn (arr : list string) (label : option string) : bool :=
  match label with
  | Some l => Js.arrayIncludes arr l
  | None => false
  end.

Definition senderHistoryM (env : Env) (fromAddress : string)
  : M (option SenderHistory) :=
  fun w =>
    (Returned (getSenderHistory (env_senderStats env (processedEmails w))
                 (env_domainStats env (processedEmails w)) fromAddress), w).

(** The three records written by the rules that discard a message. *)
Definition autoSkipRow (email : Email) (autoSkipRule : Rule)
    (senderDomain : string) : ProcessedEmail :=
  mkProcessed (email_id email) (email_internetMessageId email)
    (email_subject email) (email_fromAddress email)
    (Some (rule_classification autoSkipRule)) "discarded" false
    (RuleMeta (rule_reason autoSkipRule) (Some (rule_name autoSkipRule)))
    (Some (Js.orEmpty (previewSlice email))) None
    (Some (Js.orEmpty (previewSlice email)))
    (Some (rule_reason autoSkipRule)) (Some 1)
    (AutoSkipFactors (rule_reason autoSkipRule)
       (rule_name autoSkipRule) senderDomain).

Definition amazonRow (email : Email) : ProcessedEmail :=
  mkProcessed (email_id email) (email_internetMessageId email)
    (email_subject email) (email_fromAddress email)
    (Some "AMAZON_NOTIFICATION") "discarded" false
    (RuleMeta "Auto-skipped Amazon notification" None)
    None None (previewSlice email)
    (Some "Auto-skipped Amazon notification - no action needed in email system")
    (Some 1) AmazonFactors.

Definition systemDomainRow (email : Email) (senderDomain : string)
  : ProcessedEmail :=
  mkProcessed (email_id email) (email_internetMessageId email)
    (email_subject email) (email_fromAddress email)
    (Some "SYSTEM_NOTIFICATION") "discarded" false
    (RuleMeta ("Auto-skipped system domain: " ++ senderDomain) None)
    None None (previewSlice email)
    (Some ("Auto-skipped system domain: " ++ senderDomain))
    (Some 1) (SystemDomainFactors senderDomain).

(** [email.subject?.toLowerCase().includes('po') || ...includes('purchase order')] *)
Definition mentionsPO (email : Email) : bool :=
  match email_subject email with
  | Some s => Js.includes (Js.toLowerCase s) "po"
              || Js.includes (Js.toLowerCase s) "purchase order"
  | None => false
  end.

(** The verdict built from a matching auto-flag rule. *)
Definition autoFlagVerdict (autoFlagRule : Rule) : Classification :=
  mkCls (Some (rule_classification autoFlagRule))
    (Some match rule_confidence autoFlagRule with
          | Some q => q
          | None => 1
          end)
    (Some (rule_reason autoFlagRule)).

Definition purchaseOrderVerdict : Classification :=
  mkCls (Some "PURCHASE_ORDER_FORWARD") (Some 1)
    (Some "Purchase order from Andre").

(** Lines from "Check for special case: PO from Andre" to the end of the
    [if (!classification)] block that asks the AI. *)
Definition classifyStage (env : Env) (mailbox : string) (email : Email)
  : M Stage :=
  let fromAddress := lowerSender email in
  let senderDomain := domainOf fromAddress in
  let isFromAndre := Js.includes fromAddress "andre@alliancechemical.com" in
  let hasAttachments := email_hasAttachments email in
  let classification : option Classification :=
    match getAutoFlagRule email with
    | Some autoFlagRule => Some (autoFlagVerdict autoFlagRule)
    | None => None
    end in
  match (if isNone classification then getAutoSkipRule email else None) with
  | Some autoSkipRule =>
      (* Auto-skip known safe senders before running classification *)
      markAsRead (email_id email) mailbox ;;
      updStats incDiscarded ;;
      insertProcessed env (autoSkipRow email autoSkipRule senderDomain) ;;
      ret Continue
  | None =>
      let classification :=
        if isNone classification && isFromAndre && hasAttachments
           && mentionsPO email
        then Some purchaseOrderVerdict
        else classification in
      if isNone classification
         && Js.includes fromAddress "@alliancechemical.com" then
        (* Skip internal Alliance emails *)
        markAsRead (email_id email) mailbox ;;
        updStats incSkipped ;;
        ret Continue
      else if isNone classification && isAmazonEmail email then
        (* Skip ALL Amazon notifications *)
        markAsRead (email_id email) mailbox ;;
        updStats incDiscarded ;;
        insertProcessed env (amazonRow email) ;;
        ret Continue
      else if isNone classification
              && isSystemNotificationDomain senderDomain then
        markAsRead (email_id email) mailbox ;;
        updStats incDiscarded ;;
        insertProcessed env (systemDomainRow email senderDomain) ;;
        ret Continue
      else
        match classification with
        | Some c => ret (Proceed (JsonFields c) None)
        | None =>
            (* Skip pattern checking for now (table doesn't exist) *)
            let learnedPattern : option LearnedPattern := None in
            match learnedPattern with
            | Some p =>
                ret (Proceed
                       (JsonFields (mkCls (lp_classification p)
                                      (Some (lp_confidence p))
                                      (Some (lp_reasoning p))))
                       None)
            | None =>
                senderHistory <- senderHistoryM env fromAddress ;;
                parsed <- classifyEmail env email senderHistory ;;
                ret (Proceed parsed senderHistory)
            end
        end
  end.

(** [classification.reasoning || `Classified as ${classification.classification}`] *)
Definition flagJustification (c : Classification) : string :=
  match cls_reasoning c with
  | Some r =>
      if Js.truthy r then r
      else "Classified as " ++ showNullable (cls_classification c)
  | None => "Classified as " ++ showNullable (cls_classification c)
  end.

Definition webhookConfigured (env : Env) : bool :=
  match env_RESPONSE_WEBHOOK_URL env with
  | Some url => Js.truthy url
  | None => false
  end.

(** The record written for a message that reached a verdict. *)
Definition classifiedRow (email : Email) (c : Classification)
    (senderHistory : option SenderHistory) (shouldFlag : bool)
    (emailContent : EmailContent) (thread : ThreadInfo) : ProcessedEmail :=
  mkProcessed (email_id email) (email_internetMessageId email)
    (email_subject email) (email_fromAddress email)
    (cls_classification c)
    (if shouldFlag then "flagged" else "processed") shouldFlag
    (VerdictMeta (cls_reasoning c) (cls_confidence c))
    (Some (bodyText emailContent)) (bodyHtml emailContent)
    (Some (bodyPreview emailContent))
    (cls_reasoning c) (cls_confidence c)
    (ClassifiedFactors (cls_classification c) senderHistory
       (email_hasAttachments email) (domainOf (lowerSender email)) thread).

(** Lines from "Extract email-specific context" to [stats.processed++]. *)
Definition actStage (env : Env) (mailbox : string) (email : Email)
    (classification : JsonValue) (senderHistory : option SenderHistory)
  : M unit :=
  thread <- getThreadInfo env (email_conversationId email) mailbox ;;
  let emailContent0 :=
    mkContent EmptyString None (Js.orEmpty (previewSlice email)) in
  match classification with
  | JsonNull => throw   (* reading a property of null *)
  | JsonFields c =>
      (* Determine action based on classification *)
      let shouldFlag := labelIn CLASSIFICATIONS_TO_FLAG (cls_classification c) in
      let shouldSkip := labelIn CLASSIFICATIONS_TO_SKIP (cls_classification c) in
      emailContent <-
        (if shouldFlag then
           content <- fetchEmailContent env (email_id email) mailbox ;;
           applyFlag (email_id email) mailbox (flagJustification c) ;;
           updStats incFlagged ;;
           ret content
         else if shouldSkip then
           markAsRead (email_id email) mailbox ;;
           updStats incDiscarded ;;
           ret emailContent0
         else
           content <- fetchEmailContent env (email_id email) mailbox ;;
           applyFlag (email_id email) mailbox
             "Needs manual review - unclear classification" ;;
           updStats incFlagged ;;
           ret content) ;;
      insertProcessed env
        (classifiedRow email c senderHistory shouldFlag emailContent thread) ;;
      (if shouldFlag && webhookConfigured env then
         tryCatch
           (callResponseWebhook env (email_id email) (cls_classification c))
           (ret tt)
       else ret tt) ;;
      updStats incProcessed
  end.

(** The body of the [try] inside [for (const email of emails)]. *)
Definition processEmail (env : Env) (mailbox : string) (email : Email)
  : M unit :=
  existing <- selectExisting env (email_id email) ;;
  if (0 <? List.length existing)%nat then ret tt   (* Already processed *)
  else
    stage <- classifyStage env mailbox email ;;
    match stage with
    | Continue => ret tt
    | Proceed classification senderHistory =>
        actStage env mailbox email classification senderHistory
    end.

(** One iteration of the loop, with its [catch]. *)
Definition forEmail (env : Env) (mailbox : string) (email : Email) : M unit :=
  tryCatch (processEmail env mailbox email) (updStats incErrors).

Fixpoint forEmails (env : Env) (mailbox : string) (emails : list Email)
  : M unit :=
  match emails with
  | [] => ret tt
  | email :: rest => forEmail env mailbox email ;; forEmails env mailbox rest
  end.

(** One iteration of [for (const mailbox of mailboxes)]: a failed listing is
    logged and the mailbox is left alone. *)
Definition forMailbox (env : Env) (mailbox : string) : M unit :=
  match env_unread env mailbox with
  | Some emails => forEmails env mailbox emails
  | None => ret tt
  end.

Inductive Response :=
| Response200 (stats : Stats)
| Response500.

Definition mailboxes (env : Env) : list string :=
  [ match env_SHARED_MAILBOX_ADDRESS env with
    | Some a => if Js.truthy a then a else "sales@alliancechemical.com"
    | None => "sales@alliancechemical.com"
    end;
    "andre@alliancechemical.com" ].

(** [exports.handler]; the duration of the run is not modelled. *)
Definition handler (env : Env) (w0 : World) : Response * World :=
  if env_tokenFails env then (Response500, w0)
  else
    let w := mkWorld (processedEmails w0) (processingStats w0) (trace w0)
                     zeroStats in
    let w1 := snd (fold_left
                     (fun acc mailbox => forMailbox env mailbox (snd acc))
                     (mailboxes env) (Returned tt, w)) in
    if env_statsInsertFails env then (Response500, w1)
    else (Response200 (stats w1),
          mkWorld (processedEmails w1) (processingStats w1 ++ [stats w1])
                  (trace w1) (stats w1)).

(** * Vocabulary of the statements *)

(** ** Configured domains and aggregate answers *)

(** Every domain the tables hand to the matcher. *)
Definition ruleDomains (r : Rule) : list string :=
  match rule_domains r with Some ds => ds | None => [] end.

Definition configuredDomains : list string :=
  SYSTEM_DOMAINS ++ flat_map ruleDomains (AUTO_SKIP_RULES ++ AUTO_FLAG_RULES).








(** ** Worlds up to what was already logged and counted *)

Definition addStats (s d : Stats) : Stats :=
  mkStats (processed s + processed d) (flagged s + flagged d)
          (skipped s + skipped d) (discarded s + discarded d)
          (errors s + errors d).

(** The world with the log and the counters of the run set back. *)
Definition reset (w : World) : World :=
  mkWorld (processedEmails w) (processingStats w) [] zeroStats.

(** The world [d] reached from [reset w], seen from [w]. *)
Definition combine (w d : World) : World :=
  mkWorld (processedEmails d) (processingStats d)
          (trace w ++ trace d) (addStats (stats w) (stats d)).

(** [m] behaves from [w] as it does from [reset w], up to what [w] had
    already logged and counted. *)
Definition Framed {A} (m : M A) : Prop :=
  forall w, m w = (fst (m (reset w)), combine w (snd (m (reset w)))).

(** The two tables an iteration can read. *)
Definition store (w : World) : list ProcessedEmail * list Stats :=
  (processedEmails w, processingStats w).

Definition errorCount (w : World) : nat := errors (stats w).

(** [m] never changes the component [proj] of the world. *)
Definition Keeps {X A} (proj : World -> X) (m : M A) : Prop :=
  forall w, proj (snd (m w)) = proj w.

(** [m] never throws. *)
Definition Total {A} (m : M A) : Prop :=
  forall w, fst (m w) <> Thrown.

(** When [m] throws it has not written to the tables. *)
Definition ThrowSafe {A} (m : M A) : Prop :=
  forall w, fst (m w) = Thrown -> store (snd (m w)) = store w.

(** The first part of the loop body either ends the iteration or has left
    the tables alone. *)
Definition ContinueOrSame (m : M Stage) : Prop :=
  forall w, fst (m w) = Returned Continue \/ store (snd (m w)) = store w.

(** ** The rule engine as a first-match cascade *)

(** Which rule, if any, decides a message: the stages of the rule engine in
    their order of precedence. *)
Inductive RuleDecision :=
| ByAutoFlag (rule : Rule)
| ByAutoSkip (rule : Rule)
| ByForwarder
| ByInternal
| ByMarketplace
| BySystemDomain
| NoRule.

(** The first stage that matches, in the order auto-flag, auto-skip,
    known-sender special case, internal domain, marketplace detector,
    system-domain list. *)
Definition ruleCascade (email : Email) : RuleDecision :=
  match getAutoFlagRule email with
  | Some rule => ByAutoFlag rule
  | None =>
      match getAutoSkipRule email with
      | Some rule => ByAutoSkip rule
      | None =>
          if Js.includes (lowerSender email) "andre@alliancechemical.com"
             && email_hasAttachments email && mentionsPO email
          then ByForwarder
          else if Js.includes (lowerSender email) "@alliancechemical.com"
          then ByInternal
          else if isAmazonEmail email then ByMarketplace
          else if isSystemNotificationDomain (domainOf (lowerSender email))
          then BySystemDomain
          else NoRule
      end
  end.

(** What the handler does for each decision. *)
Definition cascadeAction (env : Env) (mailbox : string) (email : Email)
    (d : RuleDecision) : M Stage :=
  match d with
  | ByAutoFlag rule => ret (Proceed (JsonFields (autoFlagVerdict rule)) None)
  | ByAutoSkip rule =>
      markAsRead (email_id email) mailbox ;;
      updStats incDiscarded ;;
      insertProcessed env
        (autoSkipRow email rule (domainOf (lowerSender email))) ;;
      ret Continue
  | ByForwarder => ret (Proceed (JsonFields purchaseOrderVerdict) None)
  | ByInternal =>
      markAsRead (email_id email) mailbox ;;
      updStats incSkipped ;;
      ret Continue
  | ByMarketplace =>
      markAsRead (email_id email) mailbox ;;
      updStats incDiscarded ;;
      insertProcessed env (amazonRow email) ;;
      ret Continue
  | BySystemDomain =>
      markAsRead (email_id email) mailbox ;;
      updStats incDiscarded ;;
      insertProcessed env
        (systemDomainRow email (domainOf (lowerSender email))) ;;
      ret Continue
  | NoRule =>
      senderHistory <- senderHistoryM env (lowerSender email) ;;
      parsed <- classifyEmail env email senderHistory ;;
      ret (Proceed parsed senderHistory)
  end.

(** ** Closed forms of the steps of the action stage *)

Definition withTrace (es : list Effect) (w : World) : World :=
  mkWorld (processedEmails w) (processingStats w) (trace w ++ es) (stats w).

Definition withStats (f : Stats -> Stats) (w : World) : World :=
  mkWorld (processedEmails w) (processingStats w) (trace w) (f (stats w)).

Definition withRow (row : ProcessedEmail) (w : World) : World :=
  mkWorld (processedEmails w ++ [row]) (processingStats w) (trace w) (stats w).

(** The store accepts [row] on top of [rows]. *)
Definition insertable (env : Env) (rows : list ProcessedEmail)
    (row : ProcessedEmail) : bool :=
  negb (env_insertFails env (pe_messageId row))
  && negb (isNone (pe_classification row))
  && negb (existsb (hasMessageId (pe_messageId row)) rows).

Definition threadEffects (mailbox : string) (email : Email) : list Effect :=
  match email_conversationId email with
  | Some c => if Js.truthy c then [GraphListThread mailbox c] else []
  | None => []
  end.

Definition threadInfoOf (env : Env) (mailbox : string) (email : Email)
  : ThreadInfo :=
  match email_conversationId email with
  | Some c =>
      if Js.truthy c then
        match env_threadLength env mailbox c with
        | Some n => mkThread (1 <? n)%nat n
        | None => mkThread false 1
        end
      else mkThread false 1
  | None => mkThread false 1
  end.

Section ActionOfVerdict.

Variables (env : Env) (mailbox : string) (email : Email) (c : Classification).

Definition shouldFlag : bool :=
  labelIn CLASSIFICATIONS_TO_FLAG (cls_classification c).

Definition shouldSkip : bool :=
  labelIn CLASSIFICATIONS_TO_SKIP (cls_classification c).

(** The Graph requests of the action chosen for the verdict. *)
Definition actionEffects : list Effect :=
  if shouldFlag then
    [GraphFetchBody mailbox (email_id email);
     GraphFlag mailbox (email_id email) (flagJustification c)]
  else if shouldSkip then [GraphMarkRead mailbox (email_id email)]
  else
    [GraphFetchBody mailbox (email_id email);
     GraphFlag mailbox (email_id email)
       "Needs manual review - unclear classification"].

Definition actionCount : Stats -> Stats :=
  if shouldFlag then incFlagged
  else if shouldSkip then incDiscarded
  else incFlagged.

Definition actionContent : EmailContent :=
  if shouldFlag then env_fetchEmailContent env mailbox (email_id email)
  else if shouldSkip then
    mkContent EmptyString None (Js.orEmpty (previewSlice email))
  else env_fetchEmailContent env mailbox (email_id email).

Definition webhookEffects : list Effect :=
  if shouldFlag && webhookConfigured env
  then [WebhookPost (email_id email) (cls_classification c)]
  else [].

Definition verdictRow (sh : option SenderHistory) : ProcessedEmail :=
  classifiedRow email c sh shouldFlag actionContent
    (threadInfoOf env mailbox email).

End ActionOfVerdict.

Definition marksRead (e : Effect) : bool :=
  match e with GraphMarkRead _ _ => true | _ => false end.

Definition postsWebhook (e : Effect) : bool :=
  match e with WebhookPost _ _ => true | _ => false end.

(** ** Sample environments, messages and runs *)

Definition withPatterns
    (patterns : string -> option string -> QueryResult PatternRow)
    (env : Env) : Env :=
  mkEnv (env_tokenFails env) (env_SHARED_MAILBOX_ADDRESS env) (env_unread env)
    (env_selectFails env) (env_insertFails env) (env_statsInsertFails env)
    (env_senderStats env) (env_domainStats env) patterns
    (env_threadLength env) (env_fetchEmailContent env) (env_openai env)
    (env_RESPONSE_WEBHOOK_URL env) (env_webhookFails env).

(** An environment in which every store and Graph request succeeds, no
    history is known, the webhook is configured, and the AI answers [ai]. *)
Definition sampleEnv (ai : AiOutcome) : Env :=
  mkEnv false None (fun _ => Some []) (fun _ => false) (fun _ => false) false
    (fun _ _ => QueryRows []) (fun _ _ => QueryRows [])
    (fun _ _ => QueryRows [])
    (fun _ _ => None)
    (fun _ _ => mkContent "Full body" None "Full body")
    (fun _ _ => ai)
    (Some "https://responder.example/api/webhook/email-flagged")
    (fun _ => false).

Definition emptyWorld : World := mkWorld [] [] [] zeroStats.

Definition sales : string := "sales@alliancechemical.com".

Definition mail (id from subject : string) : Email :=
  mkEmail id None (Some subject) (Some from) None (Some "Hello") false None.

Definition quoteAnswer : AiOutcome :=
  JsonCompletion
    (JsonFields (mkCls (Some "QUOTE_REQUEST") (Some (9 # 10))
                   (Some "Asks for a price"))).

Definition spamAnswer : AiOutcome :=
  JsonCompletion
    (JsonFields (mkCls (Some "SPAM_PHISHING") (Some (9 # 10))
                   (Some "Unsolicited offer"))).

Definition oddAnswer : AiOutcome :=
  JsonCompletion
    (JsonFields (mkCls (Some "LEGAL_NOTICE") (Some (7 # 10))
                   (Some "Letter from a law firm"))).

Definition buyerMail : Email :=
  mail "m1" "buyer@acme.com" "Need 5 drums of acetone".

Definition shopifyMail : Email :=
  mail "m2" "mailer@shopify.com" "Order 1001 needs attention".

Definition aiFailed (o : AiOutcome) : bool :=
  match o with
  | JsonCompletion _ => false
  | _ => true
  end.

(** The fallback verdict with the reasoning text as the specification
    words it. *)
Definition statedFallback : Classification :=
  mkCls (Some "CUSTOMER_SUPPORT_REQUEST") (Some (5 # 10))
        (Some "classification failed, defaulting to manual review.").

(** A store in which the sender of [buyerMail] has a learned pattern seen
    five times. *)
Definition learnedRows (senderEmail : string) (senderDomain : option string)
  : QueryResult PatternRow :=
  if String.eqb senderEmail "buyer@acme.com"
  then QueryRows [mkPattern (Some "sender") (Some "buyer@acme.com")
                    (Some "QUOTE_REQUEST") (Some 5%N)]
  else QueryRows [].

Definition learnedEnv : Env := withPatterns learnedRows (sampleEnv spamAnswer).

(** What the AI path hands over: the parsed completion, or the fallback. *)
Definition aiVerdict (o : AiOutcome) : JsonValue :=
  match o with
  | JsonCompletion parsed => parsed
  | _ => JsonFields fallbackVerdict
  end.

Definition lookalikeMail : Email :=
  mail "m9" "bob@alliancechemical.com.evil.org" "Invoice overdue".

Definition oddVerdict : Classification :=
  mkCls (Some "LEGAL_NOTICE") (Some (7 # 10)) (Some "Letter from a law firm").

Definition spamVerdict : Classification :=
  mkCls (Some "SPAM_PHISHING") (Some (9 # 10)) (Some "Unsolicited offer").

(** A batch of five messages in a store that rejects the record of the
    third. *)
Definition rejectThird : Env :=
  mkEnv false None (fun _ => Some []) (fun _ => false)
    (fun messageId => String.eqb messageId "b3") false
    (fun _ _ => QueryRows []) (fun _ _ => QueryRows [])
    (fun _ _ => QueryRows [])
    (fun _ _ => None)
    (fun _ _ => mkContent "Full body" None "Full body")
    (fun _ _ => quoteAnswer)
    (Some "https://responder.example/api/webhook/email-flagged")
    (fun _ => false).

Definition b1 : Email := mail "b1" "ann@acme.com" "Quote for xylene".
Definition b2 : Email := mail "b2" "mailer@shopify.com" "Order 1002".
Definition b3 : Email := mail "b3" "carl@globex.com" "Price for 3 pallets".
Definition b4 : Email := mail "b4" "news@linkedin.com" "You have 3 new views".
Definition b5 : Email := mail "b5" "dora@initech.com" "Need methanol".

Definition shipstationMail : Email :=
  mail "s1" "sales-alerts@shipstation.com" "Shipment tracking update #123".

Definition forwardedOrder : Email :=
  mkEmail "p1" None (Some "PO for October order")
    (Some "andre@alliancechemical.com") None (Some "See attached") true None.

(** An environment whose shared mailbox holds [buyerMail] and whose second
    mailbox is empty. *)
Definition oneMailEnv : Env :=
  mkEnv false None
    (fun mailbox => if String.eqb mailbox sales then Some [buyerMail]
                    else Some [])
    (fun _ => false) (fun _ => false) false
    (fun _ _ => QueryRows []) (fun _ _ => QueryRows [])
    (fun _ _ => QueryRows [])
    (fun _ _ => None)
    (fun _ _ => mkContent "Full body" None "Full body")
    (fun _ _ => quoteAnswer)
    (Some "https://responder.example/api/webhook/email-flagged")
    (fun _ => false).

(** The world after [buyerMail] has been handled once. *)
Definition firstRun : World :=
  snd (forEmail (sampleEnv quoteAnswer) sales buyerMail emptyWorld).

(** The world after [buyerMail] got a label of neither list. *)
Definition oddRun : World :=
  snd (forEmail (sampleEnv oddAnswer) sales buyerMail emptyWorld).

(** The run over the batch of five. *)
Definition faultyBatch : Outcome unit * World :=
  forEmails rejectThird sales ([b1; b2] ++ b3 :: [b4; b5]) emptyWorld.

(** * Further functions of the file *)

(** ** Urgency and sentiment of a text *)

Record Urgency := mkUrgency {
  isUrgent : bool;
  urgencyLevel : string;
  urgentPhrases : list string
}.

Definition urgentWords : list string :=
  [ "urgent"; "asap"; "immediately"; "today"; "rush";
    "emergency"; "critical"; "by end of day"; "eod"; "expedite";
    "as soon as possible"; "right away"; "time sensitive" ].

(** [words.reduce((score, word) => score + (lower.includes(word) ? 1 : 0), 0)] *)
Definition keywordScore (words : list string) (lower : string) : nat :=
  fold_left
    (fun score word => (score + (if Js.includes lower word then 1 else 0))%nat)
    words 0%nat.

(** [words.filter(w => lower.includes(w))] *)
Definition keywordsFound (words : list string) (lower : string)
  : list string :=
  filter (fun w => Js.includes lower w) words.

(** Detect urgency in email *)
Definition detectUrgency (bodyText : string) : Urgency :=
  let lower := Js.toLowerCase bodyText in
  let urgencyScore := keywordScore urgentWords lower in
  mkUrgency (0 <? urgencyScore)%nat
    (if (2 <? urgencyScore)%nat then "high"
     else if (0 <? urgencyScore)%nat then "medium"
     else "low")
    (keywordsFound urgentWords lower).

Record Sentiment := mkSentiment {
  sentiment : string;
  tone : string;
  negativeIndicators : list string;
  positiveIndicators : list string
}.

Definition negativeWords : list string :=
  [ "angry"; "frustrated"; "disappointed"; "unacceptable"; "terrible";
    "awful"; "complaint" ].

Definition positiveWords : list string :=
  [ "thank"; "appreciate"; "excellent"; "great"; "happy"; "pleased";
    "wonderful" ].

Definition formalIndicators : list string :=
  [ "dear"; "sincerely"; "regards"; "respectfully"; "mr."; "ms."; "dr." ].

(** Detect sentiment/tone *)
Definition detectSentiment (bodyText : string) : Sentiment :=
  let lower := Js.toLowerCase bodyText in
  let negativeScore := List.length (keywordsFound negativeWords lower) in
  let positiveScore := List.length (keywordsFound positiveWords lower) in
  let formalScore := List.length (keywordsFound formalIndicators lower) in
  mkSentiment
    (if (positiveScore <? negativeScore)%nat then "negative"
     else if (0 <? positiveScore)%nat then "positive"
     else "neutral")
    (if (2 <=? formalScore)%nat then "formal" else "casual")
    (keywordsFound negativeWords lower)
    (keywordsFound positiveWords lower).

(** ** The content of a fetched message *)

(** The [body] object of a Graph message and the message itself, as far as
    [fetchEmailContent] reads them. *)
Record GraphBody := mkGraphBody {
  gb_content : option string;
  gb_contentType : option string
}.

Record GraphMessage := mkGraphMessage {
  gm_body : option GraphBody;
  gm_bodyPreview : option string
}.

Definition isLt (c : ascii) : bool := Ascii.eqb c "<".
Definition isGt (c : ascii) : bool := Ascii.eqb c ">".

(** Some character of [s] is [">"]. *)
Fixpoint hasGt (s : string) : bool :=
  match s with
  | EmptyString => false
  | String c t => isGt c || hasGt t
  end.

(** [s.replace(/<[^>]*>/g, '')].  A match starts at a ["<"] that has a [">"]
    somewhere after it and runs to the first such [">"]; [inTag] says that
    the scan is inside a match.  After a ["<"] with no [">"] behind it
    nothing can match any more. *)
Fixpoint stripFrom (inTag : bool) (s : string) : string :=
  match s with
  | EmptyString => EmptyString
  | String c t =>
      if inTag then
        if isGt c then stripFrom false t else stripFrom true t
      else if isLt c then
        if hasGt t then stripFrom true t else s
      else String c (stripFrom false t)
  end.

Definition stripTags (s : string) : string := stripFrom false s.

(** White space of ASCII text: tab, line feed, vertical tab, form feed,
    carriage return, space. *)
Definition isSpace (c : ascii) : bool :=
  let n := nat_of_ascii c in
  ((9 <=? n)%nat && (n <=? 13)%nat) || (n =? 32)%nat.

Fixpoint trimStart (s : string) : string :=
  match s with
  | EmptyString => EmptyString
  | String c t => if isSpace c then trimStart t else s
  end.

Fixpoint trimEnd (s : string) : string :=
  match s with
  | EmptyString => EmptyString
  | String c t =>
      match trimEnd t with
      | EmptyString => if isSpace c then EmptyString else String c EmptyString
      | t' => String c t'
      end
  end.

(** [s.trim()] on ASCII text *)
Definition trim (s : string) : string := trimEnd (trimStart s).

(** [a || b] on optional strings: the first that is present and not empty *)
Definition orElse (a : option string) (b : string) : string :=
  match a with
  | Some s => if Js.truthy s then s else b
  | None => b
  end.

(** What [fetchEmailContent] returns for the response of the Graph request;
    [None] is a request that failed. *)
Definition fetchedContent (response : option GraphMessage) : EmailContent :=
  match response with
  | Some email =>
      let bodyContent :=
        orElse (match gm_body email with
                | Some b => gb_content b
                | None => None
                end)
               (orElse (gm_bodyPreview email) EmptyString) in
      mkContent
        (trim (stripTags bodyContent))
        (match gm_body email with
         | Some b =>
             match gb_contentType b with
             | Some t => if String.eqb t "html" then Some bodyContent else None
             | None => None
             end
         | None => None
         end)
        (orElse (option_map (Js.slice0 200) (gm_bodyPreview email))
                (Js.slice0 200 bodyContent))
  | None =>
      mkContent "Failed to fetch email content" None "Content unavailable"
  end.

(** ** The earlier messages of a thread *)

(** A message of the conversation listing and the entry of
    [previousMessages] made from it. *)
Record ThreadMessage := mkThreadMessage {
  tm_receivedDateTime : option string;
  tm_from : option string;
  tm_subject : option string;
  tm_bodyPreview : option string
}.

Record PreviousMessage := mkPrevious {
  pm_date : option string;
  pm_from : option string;
  pm_subject : option string;
  pm_preview : option string
}.

(** [messages.slice(1, 4).map(m => ({..., preview: m.bodyPreview?.slice(0, 100)}))] *)
Definition previousMessages (messages : list ThreadMessage)
  : list PreviousMessage :=
  map (fun m => mkPrevious (tm_receivedDateTime m) (tm_from m) (tm_subject m)
                  (option_map (Js.slice0 100) (tm_bodyPreview m)))
      (firstn 3 (skipn 1 messages)).

(** The object returned by [getThreadInfo] when the listing succeeded. *)
Definition threadOfMessages (messages : list ThreadMessage)
  : ThreadInfo * list PreviousMessage :=
  (mkThread (1 <? List.length messages)%nat (List.length messages),
   previousMessages messages).

(** ** Tests used in the statements about fetched content *)

(** [/<[^>]*>/.test(s)]: some ["<"] of [s] has a [">"] after it. *)
Fixpoint hasTag (s : string) : bool :=
  match s with
  | EmptyString => false
  | String c t => (isLt c && hasGt t) || hasTag t
  end.

Definition startsWithSpace (s : string) : bool :=
  match s with
  | EmptyString => false
  | String c _ => isSpace c
  end.

Fixpoint endsWithSpace (s : string) : bool :=
  match s with
  | EmptyString => false
  | String c EmptyString => isSpace c
  | String _ t => endsWithSpace t
  end.

(** ** Applicable rules *)

(** [rule] passes both [continue] tests of the rule loop. *)
Definition ruleApplies (senderEmail senderDomain subject : string)
    (rule : Rule) : bool :=
  negb (negb (rule_matchAll rule)
        && negb (ruleDomainMatch rule senderDomain)
        && negb (ruleAddressMatch rule senderEmail))
  && negb (ruleKeywordsMiss rule subject).

Definition autoReplyMail : Email :=
  mail "r1" "joe@acme.com" "Automatic reply: away until Monday".

Definition relayMail : Email :=
  mail "a1" "ab12+0f3e-77@marketplace.amazon.com" "Question".


Definition htmlMessage : GraphMessage :=
  mkGraphMessage
    (Some (mkGraphBody (Some "<p> Need 5 drums </p>") (Some "html")))
    (Some "Need 5 drums").

Definition earlierMessage : ThreadMessage :=
  mkThreadMessage (Some "2024-01-02") (Some "buyer@acme.com")
    (Some "Quote") (Some "Please send a quote").

Definition twoMessages : list ThreadMessage :=
  [ mkThreadMessage (Some "2024-01-03") (Some "buyer@acme.com")
      (Some "RE: Quote") (Some "Any news?");
    earlierMessage ].
(** ** The outcome of one iteration as a decision table *)

(** A rule discards the message and writes [row]. *)
Definition discardOutcome (env : Env) (mailbox : string) (email : Email)
    (row : ProcessedEmail) (w : World) : World :=
  let w2 :=
    withStats incDiscarded
      (withTrace [GraphMarkRead mailbox (email_id email)] w) in
  if insertable env (processedEmails w) row then withRow row w2
  else withStats incErrors w2.

(** The message reached the verdict [v] after the requests [pre]. *)
Definition verdictOutcome (env : Env) (mailbox : string) (email : Email)
    (pre : list Effect) (v : JsonValue) (sh : option SenderHistory)
    (w : World) : World :=
  match v with
  | JsonNull =>
      withStats incErrors (withTrace (pre ++ threadEffects mailbox email) w)
  | JsonFields c =>
      let w2 :=
        withStats (actionCount c)
          (withTrace (pre ++ threadEffects mailbox email
                      ++ actionEffects mailbox email c) w) in
      if insertable env (processedEmails w) (verdictRow env mailbox email c sh)
      then withStats incProcessed
             (withTrace (webhookEffects env email c)
                (withRow (verdictRow env mailbox email c sh) w2))
      else withStats incErrors w2
  end.

(** The world after one iteration of the loop, catch included. *)
Definition iterationOutcome (env : Env) (mailbox : string) (email : Email)
    (w : World) : World :=
  if env_selectFails env (email_id email) then withStats incErrors w
  else if existsb (hasMessageId (email_id email)) (processedEmails w) then w
  else
    match ruleCascade email with
    | ByAutoFlag rule =>
        verdictOutcome env mailbox email []
          (JsonFields (autoFlagVerdict rule)) None w
    | ByAutoSkip rule =>
        discardOutcome env mailbox email
          (autoSkipRow email rule (domainOf (lowerSender email))) w
    | ByForwarder =>
        verdictOutcome env mailbox email []
          (JsonFields purchaseOrderVerdict) None w
    | ByInternal =>
        withStats incSkipped
          (withTrace [GraphMarkRead mailbox (email_id email)] w)
    | ByMarketplace =>
        discardOutcome env mailbox email (amazonRow email) w
    | BySystemDomain =>
        discardOutcome env mailbox email
          (systemDomainRow email (domainOf (lowerSender email))) w
    | NoRule =>
        let sh :=
          getSenderHistory (env_senderStats env (processedEmails w))
            (env_domainStats env (processedEmails w)) (lowerSender email) in
        verdictOutcome env mailbox email
          [OpenAiCompletion (email_id email)]
          (aiVerdict (env_openai env email sh)) sh w
    end.

(** The requests and the counts of one iteration. *)
Definition iterationEffects (env : Env) (mailbox : string) (email : Email)
    (w : World) : list Effect :=
  trace (iterationOutcome env mailbox email (reset w)).

Definition iterationCounts (env : Env) (mailbox : string) (email : Email)
    (w : World) : Stats :=
  stats (iterationOutcome env mailbox email (reset w)).

Definition isFlagRequest (e : Effect) : bool :=
  match e with GraphFlag _ _ _ => true | _ => false end.

Definition isBodyFetch (e : Effect) : bool :=
  match e with GraphFetchBody _ _ => true | _ => false end.

Definition isAiCall (e : Effect) : bool :=
  match e with OpenAiCompletion _ => true | _ => false end.

Definition count (f : Effect -> bool) (es : list Effect) : nat :=
  List.length (filter f es).

Definition withWebhookFails (fails : string -> bool) (env : Env) : Env :=
  mkEnv (env_tokenFails env) (env_SHARED_MAILBOX_ADDRESS env) (env_unread env)
    (env_selectFails env) (env_insertFails env) (env_statsInsertFails env)
    (env_senderStats env) (env_domainStats env) (env_patterns env)
    (env_threadLength env) (env_fetchEmailContent env) (env_openai env)
    (env_RESPONSE_WEBHOOK_URL env) fails.


Definition nullAnswer : AiOutcome := JsonCompletion JsonNull.





(** * Properties *)

(** ** Strings *)

Lemma endsWith_iff (s suffix : string) :
  Js.endsWith s suffix = true <-> exists p, s = p ++ suffix.
Proof.
  induction s as [|c t IH].
  - change (Js.endsWith EmptyString suffix) with (String.eqb EmptyString suffix || false).
    rewrite orb_false_r, String.eqb_eq. split.
    + intros <-. now exists EmptyString.
    + intros [p Hp]. destruct p; simpl in Hp; [assumption | discriminate].
  - change (Js.endsWith (String c t) suffix)
      with (String.eqb (String c t) suffix || Js.endsWith t suffix).
    rewrite orb_true_iff, String.eqb_eq, IH. split.
    + intros [<- | [p ->]].
      * now exists EmptyString.
      * now exists (String c p).
    + intros [[|c' p] Hp]; simpl in Hp.
      * now left.
      * right. injection Hp as _ ->. now exists p.
Qed.

Lemma truthy_true_iff (s : string) : Js.truthy s = true <-> s <> EmptyString.
Proof.
  unfold Js.truthy. rewrite negb_true_iff. apply String.eqb_neq.
Qed.

Lemma append_nonempty_r (p s : string) : s <> EmptyString -> p ++ s <> EmptyString.
Proof.
  destruct p; simpl; [trivial | discriminate].
Qed.

(** The matcher on any sender domain and any non-empty configured domain. *)
Lemma matchesDomain_spec (D C : string) :
  C <> EmptyString ->
  matchesDomain D C = true <-> (D = C \/ exists p, D = p ++ "." ++ C).
Proof.
  intros HC. unfold matchesDomain.
  destruct (Js.truthy D) eqn:HD; simpl.
  - apply truthy_true_iff in HC. rewrite HC. simpl.
    now rewrite orb_true_iff, String.eqb_eq, endsWith_iff.
  - split; [discriminate|].
    assert (D = EmptyString) as ->.
    { unfold Js.truthy in HD. apply negb_false_iff in HD.
      now apply String.eqb_eq in HD. }
    intros [E | [p E]].
    + now subst C.
    + symmetry in E. apply append_nonempty_r in E; [contradiction | discriminate].
Qed.

Lemma configuredDomains_nonempty (C : string) :
  In C configuredDomains -> C <> EmptyString.
Proof.
  intros H.
  assert (forallb Js.truthy configuredDomains = true) as F by reflexivity.
  rewrite forallb_forall in F. now apply truthy_true_iff, F.
Qed.

(** C4. The domain matcher reports a match for a sender domain [D] and a
    configured domain [C] exactly when [D] equals [C] or [D] ends with a dot
    followed by [C]; so "evilshopify.com" and "notshopify.com" do not match
    "shopify.com" while "mail.shopify.com" does.  The equivalence holds for
    every domain of the tables, and for any other non-empty [C] as well; an
    empty [C] is rejected by the guard of the matcher. *)
Theorem matchesDomain_suffix_exact :
  (forall D C, In C configuredDomains ->
     (matchesDomain D C = true <-> (D = C \/ exists p, D = p ++ "." ++ C)))
  /\ (forall D C, C <> EmptyString ->
     (matchesDomain D C = true <-> (D = C \/ exists p, D = p ++ "." ++ C)))
  /\ (forall D, matchesDomain D EmptyString = false)
  /\ matchesDomain "evilshopify.com" "shopify.com" = false
  /\ matchesDomain "notshopify.com" "shopify.com" = false
  /\ matchesDomain "mail.shopify.com" "shopify.com" = true.
Proof.
  split; [|split; [|split; [|repeat split; reflexivity]]].
  - intros D C HC. apply matchesDomain_spec.
    now apply configuredDomains_nonempty.
  - intros D C HC. now apply matchesDomain_spec.
  - intros D. unfold matchesDomain. now destruct (Js.truthy D).
Qed.

Lemma matchesDomain_suffix_exact_witness :
  In "shopify.com" configuredDomains
  /\ matchesDomain "mail.shopify.com" "shopify.com" = true.
Proof.
  assert (In "shopify.com" configuredDomains) as HC.
  { unfold configuredDomains. apply in_or_app. left.
    simpl. do 4 right. left. reflexivity. }
  split; [exact HC|].
  apply (proj1 matchesDomain_suffix_exact "mail.shopify.com" "shopify.com" HC).
  right. exists "mail". reflexivity.
Defined.

(** ** Sender history *)

Section SenderHistoryFacts.

Variable senderStats : string -> QueryResult AggRow.
Variable domainStats : option string -> QueryResult AggRow.







End SenderHistoryFacts.


(** ** Framing: an iteration reads the world through the tables only *)

Lemma addStats_zero (s : Stats) : addStats s zeroStats = s.
Proof.
  destruct s; unfold addStats; simpl. now rewrite !Nat.add_0_r.
Qed.

Lemma addStats_assoc (a b c : Stats) :
  addStats (addStats a b) c = addStats a (addStats b c).
Proof.
  unfold addStats; simpl. now rewrite !Nat.add_assoc.
Qed.

Lemma combine_reset (w : World) : combine w (reset w) = w.
Proof.
  destruct w; unfold combine, reset; simpl.
  now rewrite app_nil_r, addStats_zero.
Qed.

Lemma combine_assoc (w d d' : World) :
  combine (combine w d) d' = combine w (combine d d').
Proof.
  unfold combine; simpl. now rewrite app_assoc, addStats_assoc.
Qed.

Lemma reset_combine (w d : World) : reset (combine w d) = reset d.
Proof. reflexivity. Qed.

Lemma reset_reset (w : World) : reset (reset w) = reset w.
Proof. reflexivity. Qed.

Lemma framed_ret {A} (a : A) : Framed (ret a).
Proof. intros w. unfold ret; simpl. now rewrite combine_reset. Qed.

Lemma framed_throw {A} : Framed (@throw A).
Proof. intros w. unfold throw; simpl. now rewrite combine_reset. Qed.

Lemma framed_bind {A B} (m : M A) (k : A -> M B) :
  Framed m -> (forall a, Framed (k a)) -> Framed (bind m k).
Proof.
  intros Hm Hk w. unfold bind.
  rewrite (Hm w). destruct (m (reset w)) as [[a|] d]; simpl.
  - rewrite (Hk a (combine w d)), reset_combine.
    rewrite (Hk a d) at 1 2.
    destruct (k a (reset d)) as [o d']; simpl.
    now rewrite combine_assoc.
  - reflexivity.
Qed.

Lemma framed_tryCatch {A} (m h : M A) :
  Framed m -> Framed h -> Framed (tryCatch m h).
Proof.
  intros Hm Hh w. unfold tryCatch.
  rewrite (Hm w). destruct (m (reset w)) as [[a|] d]; simpl.
  - reflexivity.
  - rewrite (Hh (combine w d)), reset_combine.
    rewrite (Hh d) at 1 2.
    destruct (h (reset d)) as [o d']; simpl.
    now rewrite combine_assoc.
Qed.

Lemma framed_emit (e : Effect) : Framed (emit e).
Proof.
  intros w. unfold emit, combine, reset; simpl.
  now rewrite addStats_zero.
Qed.

Lemma framed_updStats_inc (f : Stats -> Stats) :
  (forall s, f s = addStats s (f zeroStats)) -> Framed (updStats f).
Proof.
  intros Hf w. unfold updStats, combine, reset; simpl.
  now rewrite app_nil_r, <- Hf.
Qed.

Lemma inc_addStats :
  (forall s, incProcessed s = addStats s (incProcessed zeroStats))
  /\ (forall s, incFlagged s = addStats s (incFlagged zeroStats))
  /\ (forall s, incSkipped s = addStats s (incSkipped zeroStats))
  /\ (forall s, incDiscarded s = addStats s (incDiscarded zeroStats))
  /\ (forall s, incErrors s = addStats s (incErrors zeroStats)).
Proof.
  repeat split; intros [a b c d e]; unfold addStats; simpl;
    now rewrite ?Nat.add_0_r, ?Nat.add_1_r.
Qed.

Lemma framed_selectExisting env messageId :
  Framed (selectExisting env messageId).
Proof.
  intros w. unfold selectExisting; simpl.
  destruct (env_selectFails env messageId); simpl; now rewrite combine_reset.
Qed.

Lemma framed_insertProcessed env row : Framed (insertProcessed env row).
Proof.
  intros w. unfold insertProcessed; simpl.
  destruct (env_insertFails env (pe_messageId row)); simpl;
    [now rewrite combine_reset|].
  destruct (pe_classification row); simpl; [|now rewrite combine_reset].
  destruct (existsb _ _); simpl; [now rewrite combine_reset|].
  unfold combine; simpl. now rewrite app_nil_r, addStats_zero.
Qed.

Lemma framed_senderHistoryM env fromAddress :
  Framed (senderHistoryM env fromAddress).
Proof.
  intros w. unfold senderHistoryM; simpl. now rewrite combine_reset.
Qed.

Create HintDb framed.

#[local] Hint Resolve framed_ret framed_throw framed_emit
  framed_selectExisting framed_insertProcessed framed_senderHistoryM
  : framed.
#[local] Hint Extern 1 (Framed (updStats _)) =>
  apply framed_updStats_inc; apply inc_addStats : framed.
#[local] Hint Extern 2 (Framed (bind _ _)) =>
  apply framed_bind; [|intro] : framed.
#[local] Hint Extern 2 (Framed (tryCatch _ _)) =>
  apply framed_tryCatch : framed.
#[local] Hint Extern 3 (Framed (if ?b then _ else _)) => destruct b : framed.
#[local] Hint Extern 3 (Framed (match ?x with _ => _ end)) => destruct x : framed.

Ltac framed := auto 30 with framed.

Lemma framed_markAsRead emailId mailbox : Framed (markAsRead emailId mailbox).
Proof. unfold markAsRead. framed. Qed.

Lemma framed_applyFlag emailId mailbox j : Framed (applyFlag emailId mailbox j).
Proof. unfold applyFlag. framed. Qed.

Lemma framed_fetchEmailContent env emailId mailbox :
  Framed (fetchEmailContent env emailId mailbox).
Proof. unfold fetchEmailContent. framed. Qed.

Lemma framed_getThreadInfo env conversationId mailbox :
  Framed (getThreadInfo env conversationId mailbox).
Proof. unfold getThreadInfo. framed. Qed.

Lemma framed_callResponseWebhook env messageId c :
  Framed (callResponseWebhook env messageId c).
Proof. unfold callResponseWebhook. framed. Qed.

Lemma framed_classifyEmail env email sh : Framed (classifyEmail env email sh).
Proof. unfold classifyEmail. framed. Qed.

#[local] Hint Resolve framed_markAsRead framed_applyFlag
  framed_fetchEmailContent framed_getThreadInfo framed_callResponseWebhook
  framed_classifyEmail : framed.

Lemma framed_classifyStage env mailbox email :
  Framed (classifyStage env mailbox email).
Proof. unfold classifyStage. cbv zeta. framed. Qed.

Lemma framed_actStage env mailbox email c sh :
  Framed (actStage env mailbox email c sh).
Proof. unfold actStage. cbv zeta. framed. Qed.

#[local] Hint Resolve framed_classifyStage framed_actStage : framed.

Lemma framed_processEmail env mailbox email :
  Framed (processEmail env mailbox email).
Proof. unfold processEmail. framed. Qed.

Lemma framed_forEmail env mailbox email : Framed (forEmail env mailbox email).
Proof.
  unfold forEmail. apply framed_tryCatch; [apply framed_processEmail|framed].
Qed.

Lemma framed_forEmails env mailbox emails :
  Framed (forEmails env mailbox emails).
Proof.
  induction emails as [|e rest IH]; simpl.
  - apply framed_ret.
  - apply framed_bind; [apply framed_forEmail | intros _; exact IH].
Qed.

(** ** What one iteration leaves untouched *)

Section KeepsRules.

Context {X : Type} (proj : World -> X).

Lemma keeps_ret {A} (a : A) : Keeps proj (ret a).
Proof. now intros w. Qed.

Lemma keeps_throw {A} : Keeps proj (@throw A).
Proof. now intros w. Qed.

Lemma keeps_bind {A B} (m : M A) (k : A -> M B) :
  Keeps proj m -> (forall a, Keeps proj (k a)) -> Keeps proj (bind m k).
Proof.
  intros Hm Hk w. unfold bind. specialize (Hm w).
  destruct (m w) as [[a|] w1]; simpl in *; [|assumption].
  now rewrite (Hk a w1).
Qed.

Lemma keeps_tryCatch {A} (m h : M A) :
  Keeps proj m -> Keeps proj h -> Keeps proj (tryCatch m h).
Proof.
  intros Hm Hh w. unfold tryCatch. specialize (Hm w).
  destruct (m w) as [[a|] w1]; simpl in *; [assumption|].
  now rewrite (Hh w1).
Qed.

End KeepsRules.

Lemma keeps_store_emit e : Keeps store (emit e).
Proof. now intros w. Qed.

Lemma keeps_errors_emit e : Keeps errorCount (emit e).
Proof. now intros w. Qed.

Lemma keeps_store_updStats f : Keeps store (updStats f).
Proof. now intros w. Qed.

Lemma keeps_errors_updStats f :
  (forall s, errors (f s) = errors s) -> Keeps errorCount (updStats f).
Proof. intros Hf w. apply Hf. Qed.

Lemma keeps_selectExisting {X} (proj : World -> X) env messageId :
  Keeps proj (selectExisting env messageId).
Proof.
  intros w. unfold selectExisting. now destruct (env_selectFails env messageId).
Qed.

Lemma keeps_senderHistoryM {X} (proj : World -> X) env fromAddress :
  Keeps proj (senderHistoryM env fromAddress).
Proof. now intros w. Qed.

Lemma keeps_errors_insertProcessed env row :
  Keeps errorCount (insertProcessed env row).
Proof.
  intros w. unfold insertProcessed.
  destruct (env_insertFails env (pe_messageId row)); [reflexivity|].
  destruct (pe_classification row); [|reflexivity].
  now destruct (existsb _ _).
Qed.

Lemma throwSafe_insertProcessed env row : ThrowSafe (insertProcessed env row).
Proof.
  intros w. unfold insertProcessed.
  destruct (env_insertFails env (pe_messageId row)); [reflexivity|].
  destruct (pe_classification row); [|reflexivity].
  destruct (existsb _ _); [reflexivity | discriminate].
Qed.

Create HintDb keeps.

#[local] Hint Resolve keeps_ret keeps_throw keeps_store_emit keeps_errors_emit
  keeps_store_updStats keeps_selectExisting keeps_senderHistoryM
  keeps_errors_insertProcessed : keeps.
#[local] Hint Extern 1 (Keeps errorCount (updStats _)) =>
  apply keeps_errors_updStats; intros []; reflexivity : keeps.
#[local] Hint Extern 2 (Keeps _ (bind _ _)) =>
  apply keeps_bind; [|intro] : keeps.
#[local] Hint Extern 2 (Keeps _ (tryCatch _ _)) =>
  apply keeps_tryCatch : keeps.
#[local] Hint Extern 3 (Keeps _ (if ?b then _ else _)) => destruct b : keeps.
#[local] Hint Extern 3 (Keeps _ (match ?x with _ => _ end)) =>
  destruct x : keeps.
#[local] Hint Extern 1 (Keeps _ (markAsRead _ _)) =>
  unfold markAsRead : keeps.
#[local] Hint Extern 1 (Keeps _ (applyFlag _ _ _)) =>
  unfold applyFlag : keeps.
#[local] Hint Extern 1 (Keeps _ (fetchEmailContent _ _ _)) =>
  unfold fetchEmailContent : keeps.
#[local] Hint Extern 1 (Keeps _ (getThreadInfo _ _ _)) =>
  unfold getThreadInfo : keeps.
#[local] Hint Extern 1 (Keeps _ (callResponseWebhook _ _ _)) =>
  unfold callResponseWebhook : keeps.
#[local] Hint Extern 1 (Keeps _ (classifyEmail _ _ _)) =>
  unfold classifyEmail : keeps.

Ltac keeps := auto 40 with keeps.

(** An iteration never touches the error counter; only its [catch] does. *)
Lemma keeps_errors_processEmail env mailbox email :
  Keeps errorCount (processEmail env mailbox email).
Proof.
  unfold processEmail, classifyStage, actStage. cbv zeta. keeps.
Qed.

Lemma total_ret {A} (a : A) : Total (ret a).
Proof. intros w. discriminate. Qed.

Lemma total_emit e : Total (emit e).
Proof. intros w. discriminate. Qed.

Lemma total_updStats f : Total (updStats f).
Proof. intros w. discriminate. Qed.

Lemma total_bind {A B} (m : M A) (k : A -> M B) :
  Total m -> (forall a, Total (k a)) -> Total (bind m k).
Proof.
  intros Hm Hk w. unfold bind. specialize (Hm w).
  destruct (m w) as [[a|] w1]; simpl in *; [apply Hk | congruence].
Qed.

Lemma total_tryCatch {A} (m h : M A) : Total h -> Total (tryCatch m h).
Proof.
  intros Hh w. unfold tryCatch.
  destruct (m w) as [[a|] w1]; simpl; [discriminate | apply Hh].
Qed.

Ltac total :=
  repeat first
    [ apply total_ret | apply total_emit | apply total_updStats
    | apply total_tryCatch
    | apply total_bind; [|intro]
    | match goal with
      | |- Total (if ?b then _ else _) => destruct b
      | |- Total (match ?x with _ => _ end) => destruct x
      end ].

Lemma throwSafe_keeps {A} (m : M A) : Keeps store m -> ThrowSafe m.
Proof. intros H w _. apply H. Qed.

Lemma throwSafe_bind_keeps {A B} (m : M A) (k : A -> M B) :
  Keeps store m -> (forall a, ThrowSafe (k a)) -> ThrowSafe (bind m k).
Proof.
  intros Hm Hk w. unfold bind. specialize (Hm w).
  destruct (m w) as [[a|] w1]; simpl in *; [|now intros _].
  intros H. now rewrite (Hk a w1 H).
Qed.

Lemma throwSafe_bind_total {A B} (m : M A) (k : A -> M B) :
  ThrowSafe m -> (forall a, Total (k a)) -> ThrowSafe (bind m k).
Proof.
  intros Hm Hk w. unfold bind. specialize (Hm w).
  destruct (m w) as [[a|] w1]; simpl in *; [|now intros _; apply Hm].
  intros H. now destruct (Hk a w1).
Qed.

Ltac throw_safe :=
  first
    [ apply throwSafe_keeps; solve [keeps]
    | apply throwSafe_bind_total;
      [apply throwSafe_insertProcessed | intro; solve [total]]
    | apply throwSafe_bind_keeps; [solve [keeps] | intro; throw_safe]
    | match goal with
      | |- ThrowSafe (if ?b then _ else _) => destruct b; throw_safe
      | |- ThrowSafe (match ?x with _ => _ end) => destruct x; throw_safe
      end ].

Lemma throwSafe_actStage env mailbox email c sh :
  ThrowSafe (actStage env mailbox email c sh).
Proof. unfold actStage. cbv zeta. throw_safe. Qed.

Lemma cos_keeps (m : M Stage) : Keeps store m -> ContinueOrSame m.
Proof. intros H w. right. apply H. Qed.

Lemma cos_bind {A} (m : M A) (k : A -> M Stage) :
  Keeps store m -> (forall a, ContinueOrSame (k a)) ->
  ContinueOrSame (bind m k).
Proof.
  intros Hm Hk w. unfold bind. specialize (Hm w).
  destruct (m w) as [[a|] w1]; simpl in *; [|now right].
  destruct (Hk a w1) as [H|H]; [now left | right; congruence].
Qed.

Lemma cos_insert_continue {A} (m : M A) :
  ThrowSafe m -> ContinueOrSame (bind m (fun _ => ret Continue)).
Proof.
  intros Hm w. unfold bind. specialize (Hm w).
  destruct (m w) as [[a|] w1]; simpl in *; [now left | right; now apply Hm].
Qed.

Ltac cont_or_same :=
  first
    [ apply cos_insert_continue; apply throwSafe_insertProcessed
    | apply cos_keeps; solve [keeps]
    | apply cos_bind; [solve [keeps] | intro; cont_or_same]
    | match goal with
      | |- ContinueOrSame (if ?b then _ else _) => destruct b; cont_or_same
      | |- ContinueOrSame (match ?x with _ => _ end) =>
          destruct x; cont_or_same
      end ].

Lemma cos_classifyStage env mailbox email :
  ContinueOrSame (classifyStage env mailbox email).
Proof. unfold classifyStage. cbv zeta. cont_or_same. Qed.

(** An iteration that throws has not written to the tables. *)
Lemma throwSafe_processEmail env mailbox email :
  ThrowSafe (processEmail env mailbox email).
Proof.
  unfold processEmail.
  apply throwSafe_bind_keeps; [keeps|]. intros existing.
  destruct (0 <? List.length existing)%nat; [apply throwSafe_keeps; keeps|].
  intros w. unfold bind.
  pose proof (cos_classifyStage env mailbox email w) as Hc.
  destruct (classifyStage env mailbox email w) as [[stage|] w1];
    simpl in *.
  - destruct Hc as [Hc|Hc].
    + injection Hc as ->. discriminate.
    + destruct stage as [|c sh]; [discriminate|].
      intros H. now rewrite (throwSafe_actStage env mailbox email c sh w1 H).
  - intros _. now destruct Hc.
Qed.

(** ** The loop never aborts *)

Lemma forEmail_returns env mailbox email w :
  fst (forEmail env mailbox email w) = Returned tt.
Proof.
  unfold forEmail, tryCatch.
  destruct (processEmail env mailbox email w) as [[[]|] w1]; reflexivity.
Qed.

Lemma forEmails_returns env mailbox emails w :
  fst (forEmails env mailbox emails w) = Returned tt.
Proof.
  revert w. induction emails as [|e rest IH]; intros w; simpl; [reflexivity|].
  unfold bind. pose proof (forEmail_returns env mailbox e w) as He.
  destruct (forEmail env mailbox e w) as [o w1]; simpl in He; subst o.
  apply IH.
Qed.

Lemma forEmails_cons env mailbox email rest w :
  forEmails env mailbox (email :: rest) w
  = forEmails env mailbox rest (snd (forEmail env mailbox email w)).
Proof.
  simpl. unfold bind. pose proof (forEmail_returns env mailbox email w) as He.
  destruct (forEmail env mailbox email w) as [o w1]; simpl in *. now subst o.
Qed.

Lemma forEmails_app env mailbox l1 l2 w :
  forEmails env mailbox (l1 ++ l2) w
  = forEmails env mailbox l2 (snd (forEmails env mailbox l1 w)).
Proof.
  revert w. induction l1 as [|e l1 IH]; intros w.
  - reflexivity.
  - rewrite <- app_comm_cons, !forEmails_cons. apply IH.
Qed.

(** ** The rule cascade *)

(** The chain of [if (!classification && ...)] tests of the handler is the
    first-match cascade. *)
Lemma classifyStage_cascade env mailbox email :
  classifyStage env mailbox email
  = cascadeAction env mailbox email (ruleCascade email).
Proof.
  unfold classifyStage, ruleCascade. cbv zeta.
  destruct (getAutoFlagRule email) as [fr|]; cbn [isNone andb].
  - reflexivity.
  - destruct (getAutoSkipRule email) as [sr|]; cbn [isNone andb];
      [reflexivity|].
    destruct (Js.includes (lowerSender email) "andre@alliancechemical.com"
              && email_hasAttachments email && mentionsPO email);
      cbn [isNone andb]; [reflexivity|].
    destruct (Js.includes (lowerSender email) "@alliancechemical.com");
      [reflexivity|].
    destruct (isAmazonEmail email); [reflexivity|].
    destruct (isSystemNotificationDomain (domainOf (lowerSender email)));
      reflexivity.
Qed.

(** ** Closed forms of the steps *)

Lemma insertProcessed_run env row w :
  insertProcessed env row w
  = if insertable env (processedEmails w) row
    then (Returned tt, withRow row w)
    else (Thrown, w).
Proof.
  unfold insertProcessed, insertable.
  destruct (env_insertFails env (pe_messageId row)); [reflexivity|].
  destruct (pe_classification row); [|reflexivity].
  now destruct (existsb _ _).
Qed.

Lemma withTrace_nil w : withTrace [] w = w.
Proof. destruct w. unfold withTrace; simpl. now rewrite app_nil_r. Qed.

Lemma withTrace_app es es' w :
  withTrace es' (withTrace es w) = withTrace (es ++ es') w.
Proof. unfold withTrace; simpl. now rewrite app_assoc. Qed.

Lemma getThreadInfo_run env mailbox email w :
  getThreadInfo env (email_conversationId email) mailbox w
  = (Returned (threadInfoOf env mailbox email),
     withTrace (threadEffects mailbox email) w).
Proof.
  unfold getThreadInfo, threadInfoOf, threadEffects.
  destruct (email_conversationId email) as [c|];
    [|unfold ret; now rewrite withTrace_nil].
  destruct (Js.truthy c); cbn [negb];
    [|unfold ret; now rewrite withTrace_nil].
  unfold bind, emit, ret. now destruct (env_threadLength env mailbox c).
Qed.

Section ActStageRun.

Variables (env : Env) (mailbox : string) (email : Email) (c : Classification).

Lemma webhook_run w :
  (if shouldFlag c && webhookConfigured env then
     tryCatch
       (callResponseWebhook env (email_id email) (cls_classification c))
       (ret tt)
   else ret tt) w
  = (Returned tt, withTrace (webhookEffects env email c) w).
Proof.
  unfold webhookEffects, webhookConfigured, callResponseWebhook.
  destruct (shouldFlag c); cbn [andb];
    [|unfold ret; now rewrite withTrace_nil].
  destruct (env_RESPONSE_WEBHOOK_URL env) as [url|];
    [|unfold ret; now rewrite withTrace_nil].
  destruct (Js.truthy url); cbn [negb];
    [|unfold ret; now rewrite withTrace_nil].
  unfold tryCatch, bind, emit, throw, ret.
  now destruct (env_webhookFails env (email_id email)).
Qed.

Lemma action_run w :
  (if shouldFlag c then
     content <- fetchEmailContent env (email_id email) mailbox ;;
     applyFlag (email_id email) mailbox (flagJustification c) ;;
     updStats incFlagged ;; ret content
   else if shouldSkip c then
     markAsRead (email_id email) mailbox ;;
     updStats incDiscarded ;;
     ret (mkContent EmptyString None (Js.orEmpty (previewSlice email)))
   else
     content <- fetchEmailContent env (email_id email) mailbox ;;
     applyFlag (email_id email) mailbox
       "Needs manual review - unclear classification" ;;
     updStats incFlagged ;; ret content) w
  = (Returned (actionContent env mailbox email c),
     withStats (actionCount c)
       (withTrace (actionEffects mailbox email c) w)).
Proof.
  unfold actionContent, actionCount, actionEffects.
  destruct (shouldFlag c); [|destruct (shouldSkip c)];
    unfold bind, fetchEmailContent, applyFlag, markAsRead, updStats, emit,
      ret, bind, withStats, withTrace; simpl;
    now rewrite <- ?app_assoc.
Qed.

(** The second part of the loop body, for a verdict that is not null. *)
Lemma actStage_run sh w :
  let w2 :=
    withStats (actionCount c)
      (withTrace (threadEffects mailbox email
                  ++ actionEffects mailbox email c) w) in
  actStage env mailbox email (JsonFields c) sh w
  = if insertable env (processedEmails w) (verdictRow env mailbox email c sh)
    then (Returned tt,
          withStats incProcessed
            (withTrace (webhookEffects env email c)
               (withRow (verdictRow env mailbox email c sh) w2)))
    else (Thrown, w2).
Proof.
  cbv zeta. unfold actStage. cbv zeta.
  unfold bind at 1. rewrite getThreadInfo_run.
  fold (shouldFlag c). fold (shouldSkip c).
  unfold bind at 1. rewrite action_run, withTrace_app.
  unfold bind at 1. rewrite insertProcessed_run.
  fold (verdictRow env mailbox email c sh).
  change (processedEmails (withStats (actionCount c)
            (withTrace (threadEffects mailbox email
                        ++ actionEffects mailbox email c) w)))
    with (processedEmails w).
  destruct (insertable env (processedEmails w)
              (verdictRow env mailbox email c sh));
    [|reflexivity].
  unfold bind at 1. rewrite webhook_run. reflexivity.
Qed.

End ActStageRun.

(** ** One iteration of the loop *)

Lemma select_found (p : ProcessedEmail -> bool) (rows : list ProcessedEmail) :
  existsb p rows = true ->
  (0 <? List.length (firstn 1 (filter p rows)))%nat = true.
Proof.
  induction rows as [|r rows IH]; simpl; [discriminate|].
  destruct (p r); simpl; [reflexivity | exact IH].
Qed.

Lemma select_missing (p : ProcessedEmail -> bool) (rows : list ProcessedEmail) :
  existsb p rows = false -> filter p rows = [].
Proof.
  induction rows as [|r rows IH]; simpl; [reflexivity|].
  destruct (p r); simpl; [discriminate | exact IH].
Qed.

(** A message that is not in the table yet goes through the cascade and,
    unless a rule ended the iteration, through the action stage. *)
Lemma processEmail_fresh env mailbox email w :
  env_selectFails env (email_id email) = false ->
  existsb (hasMessageId (email_id email)) (processedEmails w) = false ->
  processEmail env mailbox email w
  = (stage <- classifyStage env mailbox email ;;
     match stage with
     | Continue => ret tt
     | Proceed classification senderHistory =>
         actStage env mailbox email classification senderHistory
     end) w.
Proof.
  intros Hs He. unfold processEmail.
  unfold bind at 1. unfold selectExisting. rewrite Hs.
  now rewrite (select_missing _ _ He).
Qed.

(** A stage that hands over a verdict has only, at most, asked the AI. *)
Lemma classifyStage_proceed env mailbox email w v sh w1 :
  classifyStage env mailbox email w = (Returned (Proceed v sh), w1) ->
  w1 = w \/ w1 = withTrace [OpenAiCompletion (email_id email)] w.
Proof.
  rewrite classifyStage_cascade.
  destruct (ruleCascade email); unfold cascadeAction.
  - unfold ret. intros H. injection H as _ _ <-. now left.
  - unfold bind, markAsRead, updStats, emit. rewrite insertProcessed_run.
    destruct (insertable _ _ _); unfold ret; discriminate.
  - unfold ret. intros H. injection H as _ _ <-. now left.
  - unfold bind, markAsRead, updStats, emit, ret. discriminate.
  - unfold bind, markAsRead, updStats, emit. rewrite insertProcessed_run.
    destruct (insertable _ _ _); unfold ret; discriminate.
  - unfold bind, markAsRead, updStats, emit. rewrite insertProcessed_run.
    destruct (insertable _ _ _); unfold ret; discriminate.
  - unfold bind, senderHistoryM, classifyEmail, bind, emit, ret.
    destruct (env_openai _ _ _); intros H; injection H as _ _ <-; now right.
Qed.

(** The whole iteration for a message that reached the verdict [c]. *)
Lemma forEmail_verdict env mailbox email w c sh w1 :
  env_selectFails env (email_id email) = false ->
  existsb (hasMessageId (email_id email)) (processedEmails w) = false ->
  classifyStage env mailbox email w
    = (Returned (Proceed (JsonFields c) sh), w1) ->
  let w2 :=
    withStats (actionCount c)
      (withTrace (threadEffects mailbox email
                  ++ actionEffects mailbox email c) w1) in
  forEmail env mailbox email w
  = if insertable env (processedEmails w) (verdictRow env mailbox email c sh)
    then (Returned tt,
          withStats incProcessed
            (withTrace (webhookEffects env email c)
               (withRow (verdictRow env mailbox email c sh) w2)))
    else (Returned tt, withStats incErrors w2).
Proof.
  intros Hs He Hc. cbv zeta.
  assert (processedEmails w1 = processedEmails w) as Hrows.
  { destruct (classifyStage_proceed _ _ _ _ _ _ _ Hc) as [->| ->];
      reflexivity. }
  unfold forEmail, tryCatch.
  rewrite (processEmail_fresh _ _ _ _ Hs He).
  unfold bind at 1. rewrite Hc.
  rewrite actStage_run. cbv zeta. rewrite Hrows.
  now destruct (insertable _ _ _).
Qed.

(** ** Idempotent re-entry *)

Lemma processEmail_known env mailbox email w :
  existsb (hasMessageId (email_id email)) (processedEmails w) = true ->
  processEmail env mailbox email w
  = if env_selectFails env (email_id email) then (Thrown, w)
    else (Returned tt, w).
Proof.
  intros He. unfold processEmail, bind, selectExisting.
  destruct (env_selectFails env (email_id email)); [reflexivity|].
  now rewrite (select_found _ _ He).
Qed.

(** C1. A message whose id is already in the table of processed emails is
    left alone: the table and the log of outside requests (flag, mark-read,
    body fetch, webhook, AI) are unchanged, and when the lookup itself
    succeeds nothing at all changes. *)
Theorem already_processed_noop env mailbox email w :
  existsb (hasMessageId (email_id email)) (processedEmails w) = true ->
  let w' := snd (forEmail env mailbox email w) in
  processedEmails w' = processedEmails w
  /\ trace w' = trace w
  /\ processed (stats w') = processed (stats w)
  /\ flagged (stats w') = flagged (stats w)
  /\ skipped (stats w') = skipped (stats w)
  /\ discarded (stats w') = discarded (stats w)
  /\ (env_selectFails env (email_id email) = false -> w' = w).
Proof.
  intros He. cbv zeta.
  unfold forEmail, tryCatch. rewrite (processEmail_known _ _ _ _ He).
  destruct (env_selectFails env (email_id email)); simpl.
  - repeat split; try reflexivity. discriminate.
  - repeat split; reflexivity.
Qed.

(** ** Isolation of a failing message *)

Lemma reset_store w1 w2 : store w1 = store w2 -> reset w1 = reset w2.
Proof.
  unfold store, reset. intros H. injection H as -> ->. reflexivity.
Qed.

(** C7. In a batch in which one message makes its iteration throw, the loop
    still returns, the other messages are handled as in the batch without
    that message (same table afterwards, same outside requests), and the
    error counter is one more than in that batch: exactly one when no other
    message throws. *)
Theorem batch_isolation env mailbox before bad after w :
  let w1 := snd (forEmails env mailbox before w) in
  fst (processEmail env mailbox bad w1) = Thrown ->
  let run := forEmails env mailbox (before ++ bad :: after) w in
  let wr := snd (forEmails env mailbox (before ++ after) w) in
  let partial := trace (snd (processEmail env mailbox bad (reset w1))) in
  let others := trace (snd (forEmails env mailbox after (reset w1))) in
  fst run = Returned tt
  /\ processedEmails (snd run) = processedEmails wr
  /\ trace wr = (trace w1 ++ others)%list
  /\ trace (snd run) = (trace w1 ++ partial ++ others)%list
  /\ errors (stats (snd run)) = S (errors (stats wr))
  /\ (errors (stats wr) = errors (stats w) ->
      errors (stats (snd run)) = S (errors (stats w))).
Proof.
  intros w1 Hbad run wr partial others.
  assert (fst run = Returned tt) as Hret by apply forEmails_returns.
  split; [exact Hret|].
  (* the failing iteration *)
  pose (wb := snd (forEmail env mailbox bad w1)).
  assert (store wb = store w1
          /\ trace wb = (trace w1 ++ partial)%list
          /\ errors (stats wb) = S (errors (stats w1))) as (Hst & Htr & Her).
  { subst wb partial. unfold forEmail, tryCatch.
    pose proof (throwSafe_processEmail env mailbox bad w1 Hbad) as Hs.
    pose proof (keeps_errors_processEmail env mailbox bad w1) as Hk.
    pose proof (framed_processEmail env mailbox bad w1) as Hf.
    destruct (processEmail env mailbox bad w1) as [o wp]; simpl in *.
    subst o. simpl. repeat split.
    - exact Hs.
    - injection Hf as _ Hf. rewrite Hf. reflexivity.
    - unfold errorCount in Hk. now rewrite Hk. }
  (* the rest of the batch, from both worlds *)
  assert (snd run
          = combine wb (snd (forEmails env mailbox after (reset w1)))) as Hrun.
  { subst run. rewrite forEmails_app, forEmails_cons. fold w1. fold wb.
    rewrite (framed_forEmails env mailbox after wb). simpl.
    now rewrite (reset_store _ _ Hst). }
  assert (wr = combine w1 (snd (forEmails env mailbox after (reset w1))))
    as Hwr.
  { subst wr. rewrite forEmails_app. fold w1.
    now rewrite (framed_forEmails env mailbox after w1). }
  assert (errors (stats (snd run)) = S (errors (stats wr))) as Herr.
  { rewrite Hrun, Hwr. simpl. now rewrite Her. }
  rewrite Hrun at 1 2. rewrite Hwr at 1 2. subst others. simpl.
  rewrite Htr, <- app_assoc.
  repeat split; try reflexivity; try exact Herr.
  intros H. now rewrite Herr, H.
Qed.

(** ** From verdict to action *)

(** The parts of the world after the iteration of a message that reached
    the verdict [c]. *)
Lemma forEmail_verdict_parts env mailbox email w c sh w1 :
  env_selectFails env (email_id email) = false ->
  existsb (hasMessageId (email_id email)) (processedEmails w) = false ->
  classifyStage env mailbox email w
    = (Returned (Proceed (JsonFields c) sh), w1) ->
  let w' := snd (forEmail env mailbox email w) in
  let row := verdictRow env mailbox email c sh in
  let ok := insertable env (processedEmails w) row in
  trace w' = (trace w1 ++ threadEffects mailbox email
              ++ actionEffects mailbox email c
              ++ (if ok then webhookEffects env email c else []))%list
  /\ processedEmails w'
     = (if ok then processedEmails w ++ [row] else processedEmails w)%list
  /\ stats w' = (if ok then incProcessed else incErrors)
                  (actionCount c (stats w1)).
Proof.
  intros Hs He Hc. cbv zeta.
  assert (processedEmails w1 = processedEmails w) as Hrows.
  { destruct (classifyStage_proceed _ _ _ _ _ _ _ Hc) as [->| ->];
      reflexivity. }
  rewrite (forEmail_verdict _ _ _ _ _ _ _ Hs He Hc). cbv zeta.
  destruct (insertable _ _ _); simpl; rewrite ?Hrows, <- ?app_assoc;
    rewrite ?app_nil_r; repeat split; reflexivity.
Qed.

Lemma insertable_fresh env rows row l :
  env_insertFails env (pe_messageId row) = false ->
  pe_classification row = Some l ->
  existsb (hasMessageId (pe_messageId row)) rows = false ->
  insertable env rows row = true.
Proof.
  intros H1 H2 H3. unfold insertable. now rewrite H1, H2, H3.
Qed.

Lemma firstRule_In rules senderEmail senderDomain subject rule :
  firstRule rules senderEmail senderDomain subject = Some rule ->
  In rule rules.
Proof.
  induction rules as [|r rules IH]; simpl; [discriminate|].
  destruct (negb (rule_matchAll r) && _ && _); [now right; apply IH|].
  destruct (ruleKeywordsMiss r subject); [now right; apply IH|].
  intros H. injection H as ->. now left.
Qed.

Lemma getAutoFlagRule_In email rule :
  getAutoFlagRule email = Some rule -> In rule AUTO_FLAG_RULES.
Proof.
  unfold getAutoFlagRule.
  destruct (negb (Js.truthy (lowerSender email))); [discriminate|].
  apply firstRule_In.
Qed.

(** Every auto-flag rule of the table carries a label of the flag set and a
    reason that is used as the justification of the flag. *)
Lemma autoFlag_rules_flag rule :
  In rule AUTO_FLAG_RULES ->
  shouldFlag (autoFlagVerdict rule) = true
  /\ flagJustification (autoFlagVerdict rule) = rule_reason rule.
Proof.
  simpl. intros [<- | []]. split; reflexivity.
Qed.

(** C3. A message that matches both an auto-flag rule and the system-domain
    list (a sender at shopify.com) is decided by the auto-flag rule: the
    handler evaluates the chain auto-flag, auto-skip, known-sender special
    case, internal domain, marketplace detector, system-domain list and stops
    at the first match, so the message is fetched and flagged with the
    rule's classification and reason, it is not marked read, not counted as
    discarded, and the record written for it is the flagged one. *)
Theorem autoFlag_wins_over_systemDomain env mailbox email rule w :
  getAutoFlagRule email = Some rule ->
  isSystemNotificationDomain (domainOf (lowerSender email)) = true ->
  env_selectFails env (email_id email) = false ->
  existsb (hasMessageId (email_id email)) (processedEmails w) = false ->
  let c := autoFlagVerdict rule in
  let row := verdictRow env mailbox email c None in
  let ok := insertable env (processedEmails w) row in
  let done :=
    (threadEffects mailbox email
     ++ [GraphFetchBody mailbox (email_id email);
         GraphFlag mailbox (email_id email) (rule_reason rule)]
     ++ (if ok then webhookEffects env email c else []))%list in
  let w' := snd (forEmail env mailbox email w) in
  (forall e, classifyStage env mailbox e
             = cascadeAction env mailbox e (ruleCascade e))
  /\ ruleCascade email = ByAutoFlag rule
  /\ trace w' = (trace w ++ done)%list
  /\ existsb marksRead done = false
  /\ flagged (stats w') = S (flagged (stats w))
  /\ discarded (stats w') = discarded (stats w)
  /\ skipped (stats w') = skipped (stats w)
  /\ processedEmails w'
     = (if ok then processedEmails w ++ [row] else processedEmails w)%list
  /\ pe_classification row = Some (rule_classification rule)
  /\ pe_status row = "flagged"
  /\ pe_flagged row = true.
Proof.
  intros Hf _ Hs He. cbv zeta.
  assert (ruleCascade email = ByAutoFlag rule) as Hd.
  { unfold ruleCascade. now rewrite Hf. }
  assert (classifyStage env mailbox email w
          = (Returned (Proceed (JsonFields (autoFlagVerdict rule)) None), w))
    as Hc.
  { now rewrite classifyStage_cascade, Hd. }
  destruct (autoFlag_rules_flag rule (getAutoFlagRule_In _ _ Hf)) as [Hsf Hj].
  destruct (forEmail_verdict_parts _ _ _ _ _ _ _ Hs He Hc) as (Ht & Hr & Hst).
  assert (actionEffects mailbox email (autoFlagVerdict rule)
          = [GraphFetchBody mailbox (email_id email);
             GraphFlag mailbox (email_id email) (rule_reason rule)]) as Ha.
  { unfold actionEffects. now rewrite Hsf, Hj. }
  assert (actionCount (autoFlagVerdict rule) = incFlagged) as Hn.
  { unfold actionCount. now rewrite Hsf. }
  rewrite Ha in Ht. rewrite Hn in Hst.
  split; [intros e; apply classifyStage_cascade|].
  split; [exact Hd|].
  split; [exact Ht|].
  split.
  { rewrite !existsb_app. unfold threadEffects, webhookEffects.
    destruct (email_conversationId email) as [cv|];
      [destruct (Js.truthy cv)|];
      destruct (insertable _ _ _);
      try destruct (shouldFlag _ && webhookConfigured env); reflexivity. }
  rewrite Hst.
  repeat split; try (destruct (insertable _ _ _); reflexivity).
  - exact Hr.
  - unfold verdictRow, classifiedRow; cbn [pe_status]. now rewrite Hsf.
  - unfold verdictRow, classifiedRow; cbn [pe_flagged]. exact Hsf.
Qed.

(** C5. A message whose final label is in neither the flag set nor the skip
    set is flagged: after the thread lookup the handler fetches the body and
    applies the mailbox flag, and nothing else; the flagged counter grows by
    one, the message is not marked read, not counted as discarded or
    skipped, and no record with status discarded is written. *)
Theorem unknown_label_is_flagged env mailbox email w c sh w1 :
  env_selectFails env (email_id email) = false ->
  existsb (hasMessageId (email_id email)) (processedEmails w) = false ->
  classifyStage env mailbox email w
    = (Returned (Proceed (JsonFields c) sh), w1) ->
  labelIn CLASSIFICATIONS_TO_FLAG (cls_classification c) = false ->
  labelIn CLASSIFICATIONS_TO_SKIP (cls_classification c) = false ->
  let w' := snd (forEmail env mailbox email w) in
  (w1 = w \/ w1 = withTrace [OpenAiCompletion (email_id email)] w)
  /\ trace w' = (trace w1 ++ threadEffects mailbox email
                 ++ [GraphFetchBody mailbox (email_id email);
                     GraphFlag mailbox (email_id email)
                       "Needs manual review - unclear classification"])%list
  /\ flagged (stats w') = S (flagged (stats w1))
  /\ discarded (stats w') = discarded (stats w1)
  /\ skipped (stats w') = skipped (stats w1)
  /\ (forall row, In row (processedEmails w') ->
        In row (processedEmails w) \/ pe_status row = "processed").
Proof.
  intros Hs He Hc Hf Hk. cbv zeta.
  destruct (forEmail_verdict_parts _ _ _ _ _ _ _ Hs He Hc) as (Ht & Hr & Hst).
  assert (actionEffects mailbox email c
          = [GraphFetchBody mailbox (email_id email);
             GraphFlag mailbox (email_id email)
               "Needs manual review - unclear classification"]) as Ha.
  { unfold actionEffects, shouldFlag, shouldSkip. now rewrite Hf, Hk. }
  assert (actionCount c = incFlagged) as Hn.
  { unfold actionCount, shouldFlag, shouldSkip. now rewrite Hf, Hk. }
  assert (webhookEffects env email c = []) as Hw.
  { unfold webhookEffects, shouldFlag. now rewrite Hf. }
  rewrite Ha, Hw in Ht. rewrite Hn in Hst.
  split; [exact (classifyStage_proceed _ _ _ _ _ _ _ Hc)|].
  split.
  { rewrite Ht. destruct (insertable _ _ _); now rewrite app_nil_r. }
  rewrite Hst, Hr.
  repeat split; try (destruct (insertable _ _ _); reflexivity).
  intros row. destruct (insertable _ _ _); [|now left].
  rewrite in_app_iff. intros [H | [<- | []]]; [now left | right].
  unfold verdictRow, classifiedRow; cbn [pe_status].
  unfold shouldFlag. now rewrite Hf.
Qed.

Lemma skip_label_not_flag l :
  Js.arrayIncludes CLASSIFICATIONS_TO_SKIP l = true ->
  Js.arrayIncludes CLASSIFICATIONS_TO_FLAG l = false.
Proof.
  unfold Js.arrayIncludes, CLASSIFICATIONS_TO_SKIP. cbn [existsb].
  rewrite !orb_true_iff, !String.eqb_eq.
  intros H. repeat destruct H as [H|H]; try discriminate; subst l;
    reflexivity.
Qed.

(** C10. For a message that reached a verdict with label [l] and whose
    record is accepted by the store, the record has status flagged exactly
    when [l] is in the flag set and processed otherwise, never discarded; a
    label of the skip set is stored as processed; a label in neither set is
    stored with [flagged = false] and status processed and no webhook is
    posted for it, although the mailbox flag is applied and the flagged
    counter is incremented. *)
Theorem persisted_status_of_verdict env mailbox email w c sh w1 l :
  env_selectFails env (email_id email) = false ->
  existsb (hasMessageId (email_id email)) (processedEmails w) = false ->
  classifyStage env mailbox email w
    = (Returned (Proceed (JsonFields c) sh), w1) ->
  cls_classification c = Some l ->
  env_insertFails env (email_id email) = false ->
  let w' := snd (forEmail env mailbox email w) in
  let row := verdictRow env mailbox email c sh in
  let inFlag := Js.arrayIncludes CLASSIFICATIONS_TO_FLAG l in
  let inSkip := Js.arrayIncludes CLASSIFICATIONS_TO_SKIP l in
  processedEmails w' = (processedEmails w ++ [row])%list
  /\ pe_messageId row = email_id email
  /\ pe_classification row = Some l
  /\ pe_flagged row = inFlag
  /\ pe_status row = (if inFlag then "flagged" else "processed")
  /\ pe_status row <> "discarded"
  /\ (inSkip = true -> pe_status row = "processed" /\ pe_flagged row = false)
  /\ (inFlag = false -> inSkip = false ->
      pe_flagged row = false
      /\ pe_status row = "processed"
      /\ trace w' = (trace w1 ++ threadEffects mailbox email
                     ++ [GraphFetchBody mailbox (email_id email);
                         GraphFlag mailbox (email_id email)
                           "Needs manual review - unclear classification"])%list
      /\ existsb postsWebhook
           (threadEffects mailbox email
            ++ [GraphFetchBody mailbox (email_id email);
                GraphFlag mailbox (email_id email)
                  "Needs manual review - unclear classification"]) = false
      /\ flagged (stats w') = S (flagged (stats w1))).
Proof.
  intros Hs He Hc Hl Hi. cbv zeta.
  destruct (forEmail_verdict_parts _ _ _ _ _ _ _ Hs He Hc) as (Ht & Hr & Hst).
  assert (insertable env (processedEmails w) (verdictRow env mailbox email c sh)
          = true) as Hok.
  { apply insertable_fresh with l; assumption. }
  rewrite Hok in Ht, Hr, Hst.
  assert (shouldFlag c = Js.arrayIncludes CLASSIFICATIONS_TO_FLAG l) as Hsf.
  { unfold shouldFlag. now rewrite Hl. }
  assert (shouldSkip c = Js.arrayIncludes CLASSIFICATIONS_TO_SKIP l) as Hsk.
  { unfold shouldSkip. now rewrite Hl. }
  assert (pe_status (verdictRow env mailbox email c sh)
          = if Js.arrayIncludes CLASSIFICATIONS_TO_FLAG l
            then "flagged" else "processed") as Hstatus.
  { unfold verdictRow, classifiedRow; cbn [pe_status]. now rewrite Hsf. }
  assert (pe_flagged (verdictRow env mailbox email c sh)
          = Js.arrayIncludes CLASSIFICATIONS_TO_FLAG l) as Hflag.
  { unfold verdictRow, classifiedRow; cbn [pe_flagged]. exact Hsf. }
  split; [exact Hr|].
  split; [reflexivity|].
  split; [exact Hl|].
  split; [exact Hflag|].
  split; [exact Hstatus|].
  split.
  { rewrite Hstatus.
    destruct (Js.arrayIncludes CLASSIFICATIONS_TO_FLAG l); discriminate. }
  split.
  { intros Hin. apply skip_label_not_flag in Hin.
    rewrite Hstatus, Hflag, Hin. now split. }
  intros Hnf Hns.
  rewrite Hstatus, Hflag, Hnf.
  split; [reflexivity|]. split; [reflexivity|].
  split.
  { rewrite Ht. unfold actionEffects, webhookEffects.
    rewrite Hsf, Hsk, Hnf, Hns. cbn [andb]. now rewrite app_nil_r. }
  split.
  { rewrite existsb_app. unfold threadEffects.
    destruct (email_conversationId email) as [cv|];
      [destruct (Js.truthy cv)|]; reflexivity. }
  rewrite Hst. unfold actionCount. rewrite Hsf, Hsk, Hnf, Hns. reflexivity.
Qed.

(** ** AI failure *)

(** C2, as worded. On a transport error the classifier returns a verdict
    whose reasoning is not the text above. *)
Lemma fallback_reasoning_differs :
  aiFailed (env_openai (sampleEnv TransportError) buyerMail None) = true
  /\ fst (classifyEmail (sampleEnv TransportError) buyerMail None emptyWorld)
     <> Returned (JsonFields statedFallback).
Proof.
  split; [reflexivity|].
  vm_compute. intros H. discriminate H.
Qed.

Lemma fallback_flags :
  shouldFlag fallbackVerdict = true
  /\ flagJustification fallbackVerdict
     = "AI classification failed, defaulting to manual review".
Proof. split; reflexivity. Qed.

(** C2, with the reasoning text of the code. When the completion request
    fails (transport error, empty completion, completion that is not JSON),
    [classifyEmail] makes that one request and no other and returns the
    fixed verdict CUSTOMER_SUPPORT_REQUEST with confidence 0.5 and reasoning
    "AI classification failed, defaulting to manual review"; the handler
    then fetches the body and flags the message with that reasoning, does
    not mark it read, counts it as flagged and not as discarded, and the
    record it writes has status flagged. *)
Theorem ai_failure_falls_back env mailbox email sh w :
  aiFailed (env_openai env email sh) = true ->
  classifyEmail env email sh w
  = (Returned (JsonFields fallbackVerdict),
     withTrace [OpenAiCompletion (email_id email)] w)
  /\ fallbackVerdict
     = mkCls (Some "CUSTOMER_SUPPORT_REQUEST") (Some (5 # 10))
         (Some "AI classification failed, defaulting to manual review")
  /\ (ruleCascade email = NoRule ->
      sh = getSenderHistory (env_senderStats env (processedEmails w))
             (env_domainStats env (processedEmails w)) (lowerSender email) ->
      env_selectFails env (email_id email) = false ->
      existsb (hasMessageId (email_id email)) (processedEmails w) = false ->
      let row := verdictRow env mailbox email fallbackVerdict sh in
      let ok := insertable env (processedEmails w) row in
      let done :=
        ([OpenAiCompletion (email_id email)]
         ++ threadEffects mailbox email
         ++ [GraphFetchBody mailbox (email_id email);
             GraphFlag mailbox (email_id email)
               "AI classification failed, defaulting to manual review"]
         ++ (if ok then webhookEffects env email fallbackVerdict else []))%list in
      let w' := snd (forEmail env mailbox email w) in
      trace w' = (trace w ++ done)%list
      /\ existsb marksRead done = false
      /\ flagged (stats w') = S (flagged (stats w))
      /\ discarded (stats w') = discarded (stats w)
      /\ processedEmails w'
         = (if ok then processedEmails w ++ [row] else processedEmails w)%list
      /\ pe_classification row = Some "CUSTOMER_SUPPORT_REQUEST"
      /\ pe_status row = "flagged"
      /\ pe_flagged row = true).
Proof.
  intros Hfail.
  assert (classifyEmail env email sh w
          = (Returned (JsonFields fallbackVerdict),
             withTrace [OpenAiCompletion (email_id email)] w)) as Hcls.
  { unfold classifyEmail, bind, emit, ret.
    destruct (env_openai env email sh); try reflexivity. discriminate. }
  split; [exact Hcls|]. split; [reflexivity|].
  intros Hd Hsh Hs He. cbv zeta.
  assert (classifyStage env mailbox email w
          = (Returned (Proceed (JsonFields fallbackVerdict) sh),
             withTrace [OpenAiCompletion (email_id email)] w)) as Hc.
  { rewrite classifyStage_cascade, Hd. unfold cascadeAction.
    unfold bind at 1. unfold senderHistoryM. rewrite <- Hsh.
    unfold bind. now rewrite Hcls. }
  destruct fallback_flags as [Hsf Hj].
  destruct (forEmail_verdict_parts _ _ _ _ _ _ _ Hs He Hc) as (Ht & Hr & Hst).
  assert (actionEffects mailbox email fallbackVerdict
          = [GraphFetchBody mailbox (email_id email);
             GraphFlag mailbox (email_id email)
               "AI classification failed, defaulting to manual review"])
    as Ha.
  { unfold actionEffects. now rewrite Hsf, Hj. }
  assert (actionCount fallbackVerdict = incFlagged) as Hn.
  { unfold actionCount. now rewrite Hsf. }
  rewrite Ha in Ht. rewrite Hn in Hst.
  split.
  { rewrite Ht. unfold withTrace; cbn [trace]. now rewrite <- !app_assoc. }
  split.
  { cbn [app existsb marksRead orb]. rewrite !existsb_app.
    unfold threadEffects, webhookEffects.
    destruct (email_conversationId email) as [cv|];
      [destruct (Js.truthy cv)|];
      destruct (insertable _ _ _);
      try destruct (shouldFlag _ && webhookConfigured env); reflexivity. }
  rewrite Hst.
  repeat split; try (destruct (insertable _ _ _); reflexivity).
  exact Hr.
Qed.

Lemma ai_failure_falls_back_witness :
  classifyEmail (sampleEnv EmptyCompletion) buyerMail None emptyWorld
  = (Returned (JsonFields fallbackVerdict),
     withTrace [OpenAiCompletion "m1"] emptyWorld)
  /\ trace (snd (forEmail (sampleEnv EmptyCompletion) sales buyerMail
                   emptyWorld))
     = [OpenAiCompletion "m1"; GraphFetchBody sales "m1";
        GraphFlag sales "m1"
          "AI classification failed, defaulting to manual review";
        WebhookPost "m1" (Some "CUSTOMER_SUPPORT_REQUEST")].
Proof.
  pose proof (ai_failure_falls_back (sampleEnv EmptyCompletion) sales
                buyerMail None emptyWorld eq_refl) as H.
  destruct H as (Hc & _ & Hh).
  split; [exact Hc|].
  exact (proj1 (Hh eq_refl eq_refl eq_refl eq_refl)).
Defined.

(** ** Learned patterns *)

(** C6, as worded. No rule matches [buyerMail] and its sender has a
    pattern with five occurrences and classification QUOTE_REQUEST, yet the
    handler asks the AI and acts on and stores the AI's label. *)
Lemma learned_pattern_not_adopted :
  ruleCascade buyerMail = NoRule
  /\ option_map lp_classification
       (checkLearnedPatterns (env_patterns learnedEnv) buyerMail)
     = Some (Some "QUOTE_REQUEST")
  /\ trace (snd (forEmail learnedEnv sales buyerMail emptyWorld))
     = [OpenAiCompletion "m1"; GraphMarkRead sales "m1"]
  /\ map pe_classification
       (processedEmails (snd (forEmail learnedEnv sales buyerMail emptyWorld)))
     = [Some "SPAM_PHISHING"].
Proof. repeat split; reflexivity. Qed.

(** C6, as the handler is shipped. [checkLearnedPatterns] gives, for a
    first pattern row with at least 3 occurrences, the pattern's
    classification with confidence min(0.9, 0.6 + 0.05 x occurrences); the
    handler has the lookup switched off: for every message that no rule
    matched it reads the sender history and asks the AI classifier, whatever
    the patterns in the store. *)
Theorem learned_pattern_lookup_disabled env mailbox email w :
  (forall senderEmail p0 rest n,
      option_map Js.toLowerCase (email_fromAddress email) = Some senderEmail ->
      senderEmail <> EmptyString ->
      env_patterns env senderEmail (nth_error (Js.split "@" senderEmail) 1)
        = QueryRows (p0 :: rest) ->
      occurrenceCount p0 = Some n ->
      (3 <= n)%N ->
      exists p,
        checkLearnedPatterns (env_patterns env) email = Some p
        /\ lp_classification p = typicalClassification p0
        /\ lp_confidence p
           = Qmin (9 # 10) ((6 # 10) + inject_Z (Z.of_N n) * (5 # 100))
        /\ lp_confidence p <= 9 # 10)
  /\ (ruleCascade email = NoRule ->
      let sh := getSenderHistory (env_senderStats env (processedEmails w))
                  (env_domainStats env (processedEmails w))
                  (lowerSender email) in
      classifyStage env mailbox email w
      = (Returned (Proceed (aiVerdict (env_openai env email sh)) sh),
         withTrace [OpenAiCompletion (email_id email)] w))
  /\ (forall patterns,
      forEmail (withPatterns patterns env) mailbox email w
      = forEmail env mailbox email w).
Proof.
  split; [|split].
  - intros senderEmail p0 rest n Hsender Hne Hq Hn Hge.
    unfold checkLearnedPatterns. rewrite Hsender.
    apply truthy_true_iff in Hne. rewrite Hne. cbn [negb].
    rewrite Hq, Hn.
    apply N.leb_le in Hge. rewrite Hge.
    eexists. split; [reflexivity|]. cbn [lp_classification lp_confidence].
    repeat split. apply Q.le_min_l.
  - intros Hd. cbv zeta. rewrite classifyStage_cascade, Hd.
    unfold cascadeAction, bind, senderHistoryM, classifyEmail, bind, emit, ret.
    now destruct (env_openai env email _).
  - intros patterns. reflexivity.
Qed.

Lemma learned_pattern_lookup_disabled_witness :
  classifyStage learnedEnv sales buyerMail emptyWorld
  = (Returned (Proceed (aiVerdict spamAnswer) None),
     withTrace [OpenAiCompletion "m1"] emptyWorld).
Proof.
  exact (proj1 (proj2 (learned_pattern_lookup_disabled
                         learnedEnv sales buyerMail emptyWorld)) eq_refl).
Defined.

(** ** Internal senders *)

Lemma split_nonempty sep s : Js.split sep s <> [].
Proof.
  destruct s as [|c t]; simpl; [discriminate|].
  destruct (Ascii.eqb c sep); [discriminate|].
  destruct (Js.split sep t); discriminate.
Qed.

Lemma split_head_prefix sep s h :
  nth_error (Js.split sep s) 0 = Some h -> String.prefix h s = true.
Proof.
  revert h. induction s as [|c t IH]; intros h; simpl.
  - intros H. injection H as <-. reflexivity.
  - destruct (Ascii.eqb c sep).
    + intros H. injection H as <-. reflexivity.
    + destruct (Js.split sep t) as [|h' r] eqn:E.
      * now destruct (split_nonempty sep t).
      * intros H. injection H as <-. simpl.
        destruct (ascii_dec c c) as [_|N]; [|now destruct N].
        now apply IH.
Qed.

Lemma includes_cons c t needle :
  Js.includes t needle = true -> Js.includes (String c t) needle = true.
Proof.
  intros H. change (Js.includes (String c t) needle)
    with (String.prefix needle (String c t) || Js.includes t needle).
  rewrite H. apply orb_true_r.
Qed.

Lemma includes_prefix s needle :
  String.prefix needle s = true -> Js.includes s needle = true.
Proof.
  intros H. destruct s as [|c t].
  - change (Js.includes EmptyString needle) with (String.prefix needle EmptyString || false).
    now rewrite H.
  - change (Js.includes (String c t) needle)
      with (String.prefix needle (String c t) || Js.includes t needle).
    now rewrite H.
Qed.

(** The second piece of [s.split('@')] follows an ["@"] in [s]. *)
Lemma split_second_includes s d :
  nth_error (Js.split "@" s) 1 = Some d ->
  Js.includes s (String "@" d) = true.
Proof.
  induction s as [|c t IH]; cbn [Js.split].
  - discriminate.
  - destruct (Ascii.eqb c "@") eqn:Ec.
    + apply Ascii.eqb_eq in Ec. subst c. cbn [nth_error].
      intros H. apply split_head_prefix in H.
      apply includes_prefix. simpl.
      destruct (ascii_dec "@" "@") as [_|N]; [exact H | now destruct N].
    + destruct (Js.split "@" t) as [|h r] eqn:E.
      * discriminate.
      * cbn [nth_error] in *. intros H. apply includes_cons. now apply IH.
Qed.

Lemma domainOf_includes s d :
  d <> EmptyString -> domainOf s = d -> Js.includes s (String "@" d) = true.
Proof.
  unfold domainOf. intros Hd.
  destruct (Js.includes s "@"); [|intros H; now subst d].
  destruct (nth_error (Js.split "@" s) 1) as [d'|] eqn:E; simpl.
  - intros <-. now apply split_second_includes.
  - intros H. now subst d.
Qed.

(** A message whose sender domain is the operator's own and that no earlier
    rule captured is marked read and counted as skipped, and no record is
    written for it. *)
Lemma internal_domain_hard_skip env mailbox email w :
  getAutoFlagRule email = None ->
  getAutoSkipRule email = None ->
  Js.includes (lowerSender email) "andre@alliancechemical.com"
    && email_hasAttachments email && mentionsPO email = false ->
  domainOf (lowerSender email) = "alliancechemical.com" ->
  env_selectFails env (email_id email) = false ->
  existsb (hasMessageId (email_id email)) (processedEmails w) = false ->
  forEmail env mailbox email w
  = (Returned tt,
     withStats incSkipped
       (withTrace [GraphMarkRead mailbox (email_id email)] w)).
Proof.
  intros Hf Hk Hpo Hdom Hs He.
  assert (ruleCascade email = ByInternal) as Hd.
  { unfold ruleCascade. rewrite Hf, Hk, Hpo.
    now rewrite (domainOf_includes _ "alliancechemical.com"). }
  unfold forEmail, tryCatch.
  rewrite (processEmail_fresh _ _ _ _ Hs He).
  now rewrite classifyStage_cascade, Hd.
Qed.

(** C8, on a look-alike domain. A sender at
    alliancechemical.com.evil.org is not at the operator's domain, and no
    earlier rule captures the message, yet the handler takes the internal
    hard skip: the message is marked read and counted as skipped and no
    record is written. *)
Theorem internal_skip_takes_lookalike_domain :
  domainOf (lowerSender lookalikeMail) = "alliancechemical.com.evil.org"
  /\ matchesDomain (domainOf (lowerSender lookalikeMail))
       "alliancechemical.com" = false
  /\ getAutoFlagRule lookalikeMail = None
  /\ getAutoSkipRule lookalikeMail = None
  /\ ruleCascade lookalikeMail = ByInternal
  /\ forEmail (sampleEnv quoteAnswer) sales lookalikeMail emptyWorld
     = (Returned tt,
        mkWorld [] [] [GraphMarkRead sales "m9"] (mkStats 0 0 1 0 0)).
Proof. repeat split; reflexivity. Qed.

(** ** The properties on sample runs *)

Lemma already_processed_noop_witness :
  existsb (hasMessageId "m1") (processedEmails firstRun) = true
  /\ snd (forEmail (sampleEnv quoteAnswer) sales buyerMail firstRun) = firstRun.
Proof.
  split; [reflexivity|].
  apply (already_processed_noop (sampleEnv quoteAnswer) sales buyerMail
           firstRun eq_refl).
  reflexivity.
Defined.

Lemma autoFlag_wins_over_systemDomain_witness :
  isSystemNotificationDomain (domainOf (lowerSender shopifyMail)) = true
  /\ ruleCascade shopifyMail = ByAutoFlag shopifyMailerAlerts
  /\ trace (snd (forEmail (sampleEnv quoteAnswer) sales shopifyMail emptyWorld))
     = [GraphFetchBody sales "m2";
        GraphFlag sales "m2"
          "Shopify order or fulfillment notification requiring follow-up";
        WebhookPost "m2" (Some "CUSTOMER_SUPPORT_REQUEST")].
Proof.
  pose proof (autoFlag_wins_over_systemDomain (sampleEnv quoteAnswer) sales
                shopifyMail shopifyMailerAlerts emptyWorld
                eq_refl eq_refl eq_refl eq_refl) as H.
  cbv zeta in H. destruct H as (_ & Hd & Ht & _).
  split; [reflexivity|]. split; [exact Hd | exact Ht].
Defined.

Lemma unknown_label_is_flagged_witness :
  trace oddRun
  = [OpenAiCompletion "m1"; GraphFetchBody sales "m1";
     GraphFlag sales "m1" "Needs manual review - unclear classification"]
  /\ flagged (stats oddRun) = 1%nat
  /\ discarded (stats oddRun) = 0%nat.
Proof.
  pose proof (unknown_label_is_flagged (sampleEnv oddAnswer) sales buyerMail
                emptyWorld oddVerdict None
                (withTrace [OpenAiCompletion "m1"] emptyWorld)
                eq_refl eq_refl eq_refl eq_refl eq_refl) as H.
  cbv zeta in H. destruct H as (_ & Ht & Hf & Hd & _).
  split; [exact Ht|]. split; [exact Hf | exact Hd].
Defined.

Lemma persisted_status_of_verdict_witness :
  map pe_status
    (processedEmails
       (snd (forEmail (sampleEnv spamAnswer) sales buyerMail emptyWorld)))
  = ["processed"].
Proof.
  pose proof (persisted_status_of_verdict (sampleEnv spamAnswer) sales
                buyerMail emptyWorld spamVerdict None
                (withTrace [OpenAiCompletion "m1"] emptyWorld) "SPAM_PHISHING"
                eq_refl eq_refl eq_refl eq_refl eq_refl) as H.
  cbv zeta in H. destruct H as (Hr & _ & _ & _ & Hs & _).
  rewrite Hr. cbn [map app processedEmails emptyWorld]. now rewrite Hs.
Defined.

Lemma batch_isolation_witness :
  fst faultyBatch = Returned tt
  /\ errors (stats (snd faultyBatch)) = 1%nat
  /\ map pe_messageId (processedEmails (snd faultyBatch))
     = ["b1"; "b2"; "b4"; "b5"].
Proof.
  pose proof (batch_isolation rejectThird sales [b1; b2] b3 [b4; b5]
                emptyWorld eq_refl) as H.
  cbv zeta in H. destruct H as (Hret & Hrows & _ & _ & _ & Herr).
  split; [exact Hret|]. split.
  - apply Herr. reflexivity.
  - unfold faultyBatch. rewrite Hrows. reflexivity.
Defined.

(** ** Scenarios *)

(** A ShipStation tracking notice is auto-skipped: marked read, counted as
    discarded, stored as SYSTEM_NOTIFICATION, and neither flagged nor sent to
    the webhook. *)
Example shipstation_tracking_scenario :
  let w := snd (forEmail (sampleEnv quoteAnswer) sales shipstationMail
                  emptyWorld) in
  trace w = [GraphMarkRead sales "s1"]
  /\ stats w = mkStats 0 0 0 1 0
  /\ map pe_classification (processedEmails w) = [Some "SYSTEM_NOTIFICATION"]
  /\ map pe_status (processedEmails w) = ["discarded"].
Proof. repeat split; reflexivity. Qed.

(** A purchase order forwarded by Andre with an attachment is classified
    PURCHASE_ORDER_FORWARD at confidence 1 and flagged. *)
Example purchase_order_forward_scenario :
  let w := snd (forEmail (sampleEnv quoteAnswer) sales forwardedOrder
                  emptyWorld) in
  ruleCascade forwardedOrder = ByForwarder
  /\ map pe_classification (processedEmails w)
     = [Some "PURCHASE_ORDER_FORWARD"]
  /\ map pe_aiConfidence (processedEmails w) = [Some 1]
  /\ map pe_status (processedEmails w) = ["flagged"]
  /\ trace w
     = [GraphFetchBody sales "p1";
        GraphFlag sales "p1" "Purchase order from Andre";
        WebhookPost "p1" (Some "PURCHASE_ORDER_FORWARD")].
Proof. repeat split; reflexivity. Qed.

(** A whole run over one mailbox with one quote request writes one row of
    statistics. *)
Example handler_run_scenario :
  let env := oneMailEnv in
  fst (handler env emptyWorld) = Response200 (mkStats 1 1 0 0 0)
  /\ processingStats (snd (handler env emptyWorld)) = [mkStats 1 1 0 0 0].
Proof. split; reflexivity. Qed.

(** * Further properties *)

(** ** More on strings *)

Lemma sappend_assoc (a b c : string) : (a ++ b) ++ c = a ++ (b ++ c).
Proof. induction a as [|x a IH]; simpl; [reflexivity | now rewrite IH]. Qed.

Lemma sappend_nil_r (a : string) : a ++ EmptyString = a.
Proof. induction a as [|x a IH]; simpl; [reflexivity | now rewrite IH]. Qed.

Lemma slength_append (a b : string) :
  String.length (a ++ b) = (String.length a + String.length b)%nat.
Proof. induction a as [|x a IH]; simpl; [reflexivity | now rewrite IH]. Qed.

Lemma prefix_iff (p s : string) :
  String.prefix p s = true <-> exists r, s = p ++ r.
Proof.
  revert s. induction p as [|a p IH]; intros s.
  - destruct s; simpl; (split; [intros _; eexists; reflexivity | reflexivity]).
  - destruct s as [|b s]; simpl.
    + split; [discriminate | intros [r Hr]; discriminate].
    + destruct (ascii_dec a b) as [->|N].
      * rewrite IH. split; intros [r Hr]; exists r.
        -- now rewrite Hr.
        -- now injection Hr.
      * split; [discriminate|]. intros [r Hr]. congruence.
Qed.

Lemma includes_unfold (s needle : string) :
  Js.includes s needle
  = (String.prefix needle s
     || match s with
        | EmptyString => false
        | String _ t => Js.includes t needle
        end).
Proof. destruct s; reflexivity. Qed.

(** [s.includes(needle)] says that [needle] occurs as a block of [s]. *)
Lemma includes_iff (s needle : string) :
  Js.includes s needle = true <-> exists a b, s = a ++ needle ++ b.
Proof.
  induction s as [|c t IH]; rewrite includes_unfold.
  - rewrite orb_false_r, prefix_iff. split.
    + intros [r Hr]. now exists EmptyString, r.
    + intros [a [b H]]. destruct a; [now exists b | discriminate].
  - rewrite orb_true_iff, prefix_iff, IH. split.
    + intros [[r Hr] | [a [b H]]].
      * now exists EmptyString, r.
      * exists (String c a), b. simpl. now rewrite H.
    + intros [[|x a] [b H]]; simpl in H.
      * left. now exists b.
      * right. injection H as _ H. now exists a, b.
Qed.

Lemma includes_within (s needle a b : string) :
  Js.includes s needle = true -> Js.includes (a ++ s ++ b) needle = true.
Proof.
  rewrite !includes_iff. intros [x [y ->]].
  exists (a ++ x), (y ++ b). now rewrite !sappend_assoc.
Qed.

Lemma includes_trans (s m n : string) :
  Js.includes s m = true -> Js.includes m n = true ->
  Js.includes s n = true.
Proof.
  rewrite !includes_iff. intros [a [b ->]] [x [y ->]].
  exists (a ++ x), (y ++ b). now rewrite !sappend_assoc.
Qed.

Lemma toLowerCase_app (a b : string) :
  Js.toLowerCase (a ++ b) = Js.toLowerCase a ++ Js.toLowerCase b.
Proof. induction a as [|x a IH]; simpl; [reflexivity | now rewrite IH]. Qed.

(** No character that [toLowerCase] produces is an ASCII capital. *)
Lemma lowerChar_not_capital (c : ascii) :
  ((65 <=? nat_of_ascii (Js.lowerChar c))%nat
   && (nat_of_ascii (Js.lowerChar c) <=? 90)%nat) = false.
Proof.
  destruct c as [[] [] [] [] [] [] [] []]; reflexivity.
Qed.

Lemma toLowerCase_chars (s a b : string) (c : ascii) :
  Js.toLowerCase s = a ++ String c b -> exists c', c = Js.lowerChar c'.
Proof.
  revert a. induction s as [|x s IH]; intros a; simpl.
  - destruct a; discriminate.
  - destruct a as [|y a]; simpl; intros H; injection H as H1 H2.
    + now exists x.
    + now apply IH with a.
Qed.

Lemma toLowerCase_idem (s : string) :
  Js.toLowerCase (Js.toLowerCase s) = Js.toLowerCase s.
Proof.
  induction s as [|c s IH]; simpl; [reflexivity|]. rewrite IH. f_equal.
  unfold Js.lowerChar at 1. now rewrite lowerChar_not_capital.
Qed.

(** ** Urgency and sentiment *)

Lemma keywordScore_found (words : list string) (lower : string) :
  keywordScore words lower = List.length (keywordsFound words lower).
Proof.
  unfold keywordScore, keywordsFound.
  assert (forall n,
    fold_left (fun score word =>
                 (score + (if Js.includes lower word then 1 else 0))%nat)
              words n
    = (n + List.length (filter (fun w => Js.includes lower w) words))%nat)
    as H.
  { induction words as [|w ws IH]; intros n; simpl; [lia|].
    rewrite IH. destruct (Js.includes lower w); simpl; lia. }
  apply (H 0%nat).
Qed.

(** How the fields of the urgency signal depend on the phrases found. *)
Lemma detectUrgency_fields (bodyText : string) :
  let u := detectUrgency bodyText in
  let found := List.length (urgentPhrases u) in
  (isUrgent u = true <-> urgentPhrases u <> [])
  /\ (urgencyLevel u = "high" <-> (3 <= found)%nat)
  /\ (urgencyLevel u = "medium" <-> (1 <= found <= 2)%nat)
  /\ (urgencyLevel u = "low" <-> urgentPhrases u = [])
  /\ (forall w, In w (urgentPhrases u) <->
        In w urgentWords
        /\ Js.includes (Js.toLowerCase bodyText) w = true).
Proof.
  cbv zeta. unfold detectUrgency. cbv zeta.
  cbn [isUrgent urgencyLevel urgentPhrases].
  rewrite keywordScore_found.
  set (found := keywordsFound urgentWords (Js.toLowerCase bodyText)).
  assert (found = [] <-> List.length found = 0%nat) as Hnil.
  { destruct found; simpl; split; intros H; try reflexivity; discriminate. }
  repeat split.
  - intros H. apply Nat.ltb_lt in H. intros E. rewrite E in H. simpl in H. lia.
  - intros H. apply Nat.ltb_lt. destruct found; [now destruct H | simpl; lia].
  - destruct (2 <? List.length found)%nat eqn:E2;
      [apply Nat.ltb_lt in E2; lia|].
    destruct (0 <? List.length found)%nat; discriminate.
  - intros H. assert ((2 <? List.length found)%nat = true) as ->
      by (apply Nat.ltb_lt; lia). reflexivity.
  - destruct (2 <? List.length found)%nat eqn:E2; [discriminate|].
    apply Nat.ltb_ge in E2.
    destruct (0 <? List.length found)%nat eqn:E0; [|discriminate].
    apply Nat.ltb_lt in E0. lia.
  - destruct (2 <? List.length found)%nat eqn:E2; [discriminate|].
    apply Nat.ltb_ge in E2. lia.
  - intros [H1 H2].
    assert ((2 <? List.length found)%nat = false) as ->
      by (apply Nat.ltb_ge; lia).
    assert ((0 <? List.length found)%nat = true) as ->
      by (apply Nat.ltb_lt; lia). reflexivity.
  - destruct (2 <? List.length found)%nat eqn:E2; [discriminate|].
    destruct (0 <? List.length found)%nat eqn:E0; [discriminate|].
    apply Nat.ltb_ge in E0. intros _. apply Hnil. lia.
  - intros H. rewrite H. reflexivity.
  - subst found. unfold keywordsFound in H. now apply filter_In in H.
  - subst found. unfold keywordsFound in H. now apply filter_In in H.
  - intros [H1 H2]. subst found. unfold keywordsFound.
    apply filter_In. now split.
Qed.

(** X1. The fields of the urgency signal agree with one another: the
    message is urgent exactly when some urgent phrase was found, the level
    is high exactly when at least three distinct phrases of the list were
    found, low exactly when none was, and every phrase reported is a word of
    the list that occurs in the lower-cased text. *)
Theorem detectUrgency_consistent (bodyText : string) :
  let u := detectUrgency bodyText in
  let found := List.length (urgentPhrases u) in
  (isUrgent u = true <-> urgentPhrases u <> [])
  /\ (urgencyLevel u = "high" <-> (3 <= found)%nat)
  /\ (urgencyLevel u = "medium" <-> (1 <= found <= 2)%nat)
  /\ (urgencyLevel u = "low" <-> urgentPhrases u = [])
  /\ (forall w, In w (urgentPhrases u) <->
        In w urgentWords
        /\ Js.includes (Js.toLowerCase bodyText) w = true).
Proof. exact (detectUrgency_fields bodyText). Qed.


Lemma detectUrgency_consistent_witness :
  urgencyLevel (detectUrgency "URGENT: ship today, ASAP please") = "high".
Proof.
  pose proof (detectUrgency_consistent "URGENT: ship today, ASAP please")
    as H.
  cbv zeta in H. destruct H as (_ & H & _). apply H. vm_compute. lia.
Defined.

Lemma keywordsFound_within (words : list string) (s a b : string) :
  incl (keywordsFound words (Js.toLowerCase s))
       (keywordsFound words (Js.toLowerCase (a ++ s ++ b))).
Proof.
  intros w H. unfold keywordsFound in *.
  apply filter_In in H as [H1 H2]. apply filter_In. split; [assumption|].
  rewrite !toLowerCase_app. now apply includes_within.
Qed.

Lemma filter_length_le {A} (p q : A -> bool) (l : list A) :
  (forall x, p x = true -> q x = true) ->
  (List.length (filter p l) <= List.length (filter q l))%nat.
Proof.
  intros H. induction l as [|x l IH]; simpl; [lia|].
  destruct (p x) eqn:Ep.
  - rewrite (H x Ep). simpl. lia.
  - destruct (q x); simpl; lia.
Qed.

(** X2. Urgency only grows with the text: when a text occurs inside a longer
    one, every urgent phrase found in it is found in the longer one, an
    urgent text stays urgent and a high level stays high. *)
Theorem detectUrgency_monotone (s a b : string) :
  let u := detectUrgency s in
  let u' := detectUrgency (a ++ s ++ b) in
  incl (urgentPhrases u) (urgentPhrases u')
  /\ (isUrgent u = true -> isUrgent u' = true)
  /\ (urgencyLevel u = "high" -> urgencyLevel u' = "high")
  /\ (urgencyLevel u' = "low" -> urgencyLevel u = "low").
Proof.
  cbv zeta.
  assert (List.length (urgentPhrases (detectUrgency s))
          <= List.length (urgentPhrases (detectUrgency (a ++ s ++ b))))%nat
    as Hle.
  { cbn [detectUrgency urgentPhrases]. unfold keywordsFound.
    apply filter_length_le. intros w Hw.
    rewrite !toLowerCase_app. now apply includes_within. }
  pose proof (detectUrgency_fields s) as Hs.
  pose proof (detectUrgency_fields (a ++ s ++ b)) as Hl.
  cbv zeta in Hs, Hl.
  destruct Hs as (Hs1 & Hs2 & _ & Hs4 & _).
  destruct Hl as (Hl1 & Hl2 & _ & Hl4 & _).
  split; [apply keywordsFound_within|].
  split; [|split].
  - intros H. apply Hl1. apply Hs1 in H. intros E. rewrite E in Hle.
    destruct (urgentPhrases (detectUrgency s)); [now destruct H|].
    simpl in Hle. lia.
  - intros H. apply Hl2. apply Hs2 in H. lia.
  - intros H. apply Hs4. apply Hl4 in H. rewrite H in Hle.
    destruct (urgentPhrases (detectUrgency s)); [reflexivity|].
    simpl in Hle. lia.
Qed.


Lemma detectUrgency_monotone_witness :
  isUrgent (detectUrgency ("Re: " ++ "rush" ++ " order")) = true.
Proof.
  pose proof (detectUrgency_monotone "rush" "Re: " " order") as H.
  cbv zeta in H. destruct H as (_ & H & _). apply H. reflexivity.
Defined.

(** X3. The sentiment is negative exactly when more negative than positive
    indicators were found, neutral exactly when no indicator of either kind
    was found, and positive in every other case, so also when as many
    negative as positive indicators were found; the tone is formal exactly
    when at least two formal markers occur. *)
Theorem detectSentiment_cases (bodyText : string) :
  let r := detectSentiment bodyText in
  let neg := List.length (negativeIndicators r) in
  let pos := List.length (positiveIndicators r) in
  (sentiment r = "negative" <-> (pos < neg)%nat)
  /\ (sentiment r = "neutral"
      <-> negativeIndicators r = [] /\ positiveIndicators r = [])
  /\ (sentiment r = "positive" <-> (1 <= pos)%nat /\ (neg <= pos)%nat)
  /\ (tone r = "formal"
      <-> (2 <= List.length
                  (keywordsFound formalIndicators
                     (Js.toLowerCase bodyText)))%nat)
  /\ (tone r = "formal" \/ tone r = "casual").
Proof.
  cbv zeta. unfold detectSentiment. cbv zeta.
  cbn [sentiment tone negativeIndicators positiveIndicators].
  set (neg := keywordsFound negativeWords (Js.toLowerCase bodyText)).
  set (pos := keywordsFound positiveWords (Js.toLowerCase bodyText)).
  set (frm := keywordsFound formalIndicators (Js.toLowerCase bodyText)).
  assert (forall l : list string, l = [] <-> List.length l = 0%nat) as Hnil.
  { intros [|x l]; simpl; split; intros H; try reflexivity; discriminate. }
  destruct (List.length pos <? List.length neg)%nat eqn:E1;
    [apply Nat.ltb_lt in E1 | apply Nat.ltb_ge in E1];
    (destruct (0 <? List.length pos)%nat eqn:E2;
      [apply Nat.ltb_lt in E2 | apply Nat.ltb_ge in E2]);
    (destruct (2 <=? List.length frm)%nat eqn:E3;
      [apply Nat.leb_le in E3 | apply Nat.leb_gt in E3]).
  all: repeat split; intros; try reflexivity; try discriminate; try lia.
  all: try (apply Hnil; lia).
  all: try (match goal with
            | H : _ /\ _ |- _ => destruct H as [Ha Hb];
                apply Hnil in Ha; apply Hnil in Hb; lia
            end).
  all: try (now left); try (now right).
Qed.


Lemma detectSentiment_cases_witness :
  sentiment (detectSentiment "Thank you, but the delay is unacceptable")
  = "positive".
Proof.
  pose proof (detectSentiment_cases
                "Thank you, but the delay is unacceptable") as H.
  cbv zeta in H. destruct H as (_ & _ & H & _). apply H.
  vm_compute. lia.
Defined.

(** ** Fetched content *)

Lemma hasTag_hasGt (s : string) : hasTag s = true -> hasGt s = true.
Proof.
  induction s as [|c t IH]; simpl; [discriminate|].
  rewrite !orb_true_iff, andb_true_iff. intros [[_ H] | H]; right; auto.
Qed.

Lemma stripFrom_clean (s : string) :
  hasTag (stripFrom false s) = false /\ hasTag (stripFrom true s) = false.
Proof.
  induction s as [|c t [IH1 IH2]]; simpl; [now split|].
  split.
  - destruct (isLt c) eqn:El.
    + destruct (hasGt t) eqn:Eg; [exact IH2|].
      simpl. rewrite El, Eg. simpl.
      destruct (hasTag t) eqn:Et; [|reflexivity].
      apply hasTag_hasGt in Et. congruence.
    + simpl. now rewrite El, IH1.
  - now destruct (isGt c).
Qed.

Lemma stripFrom_fixed (s : string) :
  hasTag s = false -> stripFrom false s = s.
Proof.
  induction s as [|c t IH]; simpl; [reflexivity|].
  rewrite orb_false_iff. intros [H1 H2].
  destruct (isLt c); simpl in H1.
  - now rewrite H1.
  - now rewrite IH.
Qed.

(** X4. Stripping the tags leaves no complete tag behind (no ["<"] with a
    [">"] after it), so stripping twice is stripping once, and a text
    without a complete tag is returned as it is. *)
Theorem stripTags_complete (s : string) :
  hasTag (stripTags s) = false
  /\ stripTags (stripTags s) = stripTags s
  /\ (hasTag s = false -> stripTags s = s).
Proof.
  unfold stripTags.
  pose proof (proj1 (stripFrom_clean s)) as H.
  split; [exact H|]. split; [now apply stripFrom_fixed|].
  apply stripFrom_fixed.
Qed.

Lemma stripTags_complete_witness :
  hasTag "2 < 3 drums" = false /\ stripTags "2 < 3 drums" = "2 < 3 drums".
Proof.
  split; [reflexivity|].
  apply (proj2 (proj2 (stripTags_complete "2 < 3 drums"))). reflexivity.
Defined.

Lemma trimStart_hasTag (s : string) :
  hasTag s = false -> hasTag (trimStart s) = false.
Proof.
  induction s as [|c t IH]; simpl; [reflexivity|].
  intros H. destruct (isSpace c); [|exact H].
  apply IH. now apply orb_false_iff in H.
Qed.

Lemma trimEnd_hasGt (s : string) :
  hasGt s = false -> hasGt (trimEnd s) = false.
Proof.
  induction s as [|c t IH]; simpl; [reflexivity|].
  rewrite orb_false_iff. intros [H1 H2]. specialize (IH H2).
  destruct (trimEnd t) eqn:E.
  - destruct (isSpace c); simpl; [reflexivity | now rewrite H1].
  - simpl in *. now rewrite H1, IH.
Qed.

Lemma trimEnd_hasTag (s : string) :
  hasTag s = false -> hasTag (trimEnd s) = false.
Proof.
  induction s as [|c t IH]; simpl; [reflexivity|].
  rewrite orb_false_iff, andb_false_iff. intros [H1 H2]. specialize (IH H2).
  destruct (trimEnd t) as [|a s0] eqn:E.
  - destruct (isSpace c); simpl; [reflexivity|].
    now rewrite andb_false_r.
  - change ((isLt c && hasGt (String a s0) || hasTag (String a s0)) = false).
    rewrite IH, orb_false_r. apply andb_false_iff.
    destruct H1 as [H1|H1]; [now left | right].
    rewrite <- E. now apply trimEnd_hasGt.
Qed.

Lemma trimStart_start (s : string) : startsWithSpace (trimStart s) = false.
Proof.
  induction s as [|c t IH]; simpl; [reflexivity|].
  destruct (isSpace c) eqn:E; [exact IH | simpl; exact E].
Qed.

Lemma trimEnd_end (s : string) : endsWithSpace (trimEnd s) = false.
Proof.
  induction s as [|c t IH]; simpl; [reflexivity|].
  destruct (trimEnd t) as [|d t'] eqn:E.
  - destruct (isSpace c) eqn:Ec; simpl; [reflexivity | exact Ec].
  - exact IH.
Qed.

Lemma trimEnd_start (s : string) :
  startsWithSpace s = false -> startsWithSpace (trimEnd s) = false.
Proof.
  destruct s as [|c t]; simpl; [reflexivity|]. intros H.
  destruct (trimEnd t); [rewrite H|]; simpl; assumption.
Qed.

Lemma slice0_length (n : nat) (s : string) :
  (String.length (Js.slice0 n s) <= n)%nat.
Proof.
  unfold Js.slice0. revert s. induction n as [|n IH]; intros s.
  - destruct s; simpl; lia.
  - destruct s as [|c t]; simpl; [lia|]. specialize (IH t). lia.
Qed.

(** X5. Whatever Graph answers, the content handed to the handler has a
    body text without a complete tag and without white space at either end,
    and a preview of at most 200 characters; when an HTML body is kept, the
    body text is that body with its tags stripped and trimmed.  A failed
    request gives the fixed placeholder texts instead of throwing. *)
Theorem fetchedContent_shape (response : option GraphMessage) :
  let c := fetchedContent response in
  hasTag (bodyText c) = false
  /\ startsWithSpace (bodyText c) = false
  /\ endsWithSpace (bodyText c) = false
  /\ (String.length (bodyPreview c) <= 200)%nat
  /\ (forall h, bodyHtml c = Some h -> bodyText c = trim (stripTags h))
  /\ (response = None ->
      c = mkContent "Failed to fetch email content" None
            "Content unavailable").
Proof.
  cbv zeta. destruct response as [email|].
  - unfold fetchedContent. cbv zeta. cbn [bodyText bodyHtml bodyPreview].
    set (bodyContent := orElse _ (orElse (gm_bodyPreview email) EmptyString)).
    split; [|split; [|split; [|split; [|split]]]].
    + unfold trim. apply trimEnd_hasTag, trimStart_hasTag.
      apply (proj1 (stripFrom_clean bodyContent)).
    + unfold trim. apply trimEnd_start, trimStart_start.
    + unfold trim. apply trimEnd_end.
    + unfold orElse. destruct (gm_bodyPreview email) as [p|]; simpl.
      * destruct (Js.truthy (Js.slice0 200 p)); apply slice0_length.
      * apply slice0_length.
    + intros h. destruct (gm_body email) as [b|]; [|discriminate].
      destruct (gb_contentType b) as [t|]; [|discriminate].
      destruct (String.eqb t "html"); [|discriminate].
      intros H. now injection H as <-.
    + discriminate.
  - split; [|split; [|split; [|split; [|split]]]]; try reflexivity.
    + simpl. lia.
    + discriminate.
Qed.


Lemma fetchedContent_shape_witness :
  bodyText (fetchedContent (Some htmlMessage)) = "Need 5 drums".
Proof.
  pose proof (fetchedContent_shape (Some htmlMessage)) as H.
  cbv zeta in H. destruct H as (_ & _ & _ & _ & H & _).
  rewrite (H "<p> Need 5 drums </p>" eq_refl). reflexivity.
Defined.

(** ** Earlier messages of a thread *)

Lemma option_slice_length (n : nat) (o : option string) (s : string) :
  option_map (Js.slice0 n) o = Some s -> (String.length s <= n)%nat.
Proof.
  destruct o as [x|]; simpl; [|discriminate].
  intros H. injection H as <-. apply slice0_length.
Qed.

(** X6. For a listed conversation the thread information reports at most
    three earlier messages, never the newest one, exactly
    min(3, length - 1) of them, each with a preview of at most 100
    characters; the message is a reply exactly when an earlier message is
    reported. *)
Theorem threadOfMessages_previous (messages : list ThreadMessage) :
  let info := fst (threadOfMessages messages) in
  let previous := snd (threadOfMessages messages) in
  List.length previous = Nat.min 3 (List.length messages - 1)
  /\ (isReply info = true <-> previous <> [])
  /\ threadLength info = List.length messages
  /\ map pm_subject previous
     = map tm_subject (firstn 3 (skipn 1 messages))
  /\ (forall p s, In p previous -> pm_preview p = Some s ->
        (String.length s <= 100)%nat).
Proof.
  cbv zeta. unfold threadOfMessages, previousMessages.
  cbn [fst snd isReply threadLength].
  assert (List.length (firstn 3 (skipn 1 messages))
          = Nat.min 3 (List.length messages - 1)) as Hlen.
  { rewrite length_firstn, length_skipn. reflexivity. }
  split; [now rewrite length_map|].
  split.
  { rewrite Nat.ltb_lt. split.
    - intros H E. apply (f_equal (@List.length _)) in E.
      rewrite length_map, Hlen in E. cbn [List.length] in E. lia.
    - intros H. destruct messages as [|m [|m' ms]];
        [now destruct H | now destruct H | cbn [List.length]; lia]. }
  split; [reflexivity|].
  split; [now rewrite map_map|].
  intros p s Hp Hs. apply in_map_iff in Hp as [m [<- _]]. simpl in Hs.
  now apply option_slice_length in Hs.
Qed.


Lemma threadOfMessages_previous_witness :
  isReply (fst (threadOfMessages twoMessages)) = true.
Proof.
  pose proof (threadOfMessages_previous twoMessages) as H.
  cbv zeta in H. destruct H as (_ & H & _). apply H. discriminate.
Defined.

(** ** The marketplace detector *)

Lemma span_app (p : ascii -> bool) (s a r : string) :
  Js.span p s = (a, r) -> s = a ++ r.
Proof.
  revert a r. induction s as [|c t IH]; intros a r; simpl.
  - intros H. now injection H as <- <-.
  - destruct (p c).
    + destruct (Js.span p t) as [a' r'] eqn:E. intros H.
      injection H as <- <-. simpl. now rewrite (IH a' r' eq_refl).
    + intros H. now injection H as <- <-.
Qed.

Lemma relayAt_includes (s : string) :
  relayAt s = true -> Js.includes s "@marketplace.amazon.com" = true.
Proof.
  unfold relayAt. destruct (Js.span isLowerAlnum s) as [a r] eqn:Ea.
  apply span_app in Ea. subst s.
  rewrite andb_true_iff. intros [_ H].
  destruct r as [|c r']; [discriminate|].
  destruct c as [[] [] [] [] [] [] [] []]; try discriminate.
  destruct (Js.span isHexOrDash r') as [b r''] eqn:Eb.
  apply span_app in Eb. subst r'.
  apply andb_true_iff in H as [_ H]. unfold Js.startsWith in H.
  apply prefix_iff in H as [rest ->].
  apply includes_iff. exists (a ++ String "+" b), rest.
  rewrite sappend_assoc. reflexivity.
Qed.

Lemma relay_includes (s : string) :
  matchesMarketplaceRelay s = true ->
  Js.includes s "@marketplace.amazon.com" = true.
Proof.
  induction s as [|c t IH]; intros H.
  - apply relayAt_includes.
    change (relayAt EmptyString || false = true) in H.
    now rewrite orb_false_r in H.
  - change (relayAt (String c t) || matchesMarketplaceRelay t = true) in H.
    apply orb_true_iff in H as [H|H].
    + now apply relayAt_includes.
    + apply includes_cons. now apply IH.
Qed.

(** X7. The test of the sender address against the relay pattern
    [/[a-z0-9]+\+[a-f0-9\-]+@marketplace\.amazon\.com/] never decides
    anything: an address it matches contains "@marketplace.amazon.com", which
    the first test of the detector has already answered with true. *)
Theorem relay_pattern_subsumed (email : Email) :
  matchesMarketplaceRelay (lowerSender email) = true ->
  Js.includes (lowerSender email) "@marketplace.amazon.com" = true
  /\ isAmazonEmail email = true.
Proof.
  intros H. apply relay_includes in H.
  split; [exact H|].
  unfold isAmazonEmail. cbv zeta. rewrite H.
  now rewrite !orb_true_r.
Qed.

Lemma relay_pattern_subsumed_witness :
  Js.includes (lowerSender relayMail) "@marketplace.amazon.com" = true
  /\ isAmazonEmail relayMail = true.
Proof. exact (relay_pattern_subsumed relayMail eq_refl). Defined.

(** X8. The subject test for "[commMgrTok:" can never succeed: the subject
    has been lower-cased and the marker contains capital letters, so a
    message carrying only that marker is not recognised by it. *)
Theorem commMgrTok_never_matches (email : Email) :
  Js.includes (lowerSubject email) "[commMgrTok:" = false.
Proof.
  unfold lowerSubject. destruct (email_subject email) as [s|]; simpl;
    [|reflexivity].
  destruct (Js.includes (Js.toLowerCase s) "[commMgrTok:") eqn:E;
    [|reflexivity].
  exfalso.
  assert (Js.includes (Js.toLowerCase s) "M" = true) as H.
  { apply includes_trans with "[commMgrTok:"; [exact E | reflexivity]. }
  apply includes_iff in H as [a [b H]]. simpl in H.
  apply toLowerCase_chars in H as [c' Hc].
  pose proof (lowerChar_not_capital c') as Hn. rewrite <- Hc in Hn.
  discriminate Hn.
Qed.

(** ** Domains *)

Lemma matchesDomain_nonempty (D C : string) :
  matchesDomain D C = true -> D <> EmptyString /\ C <> EmptyString.
Proof.
  unfold matchesDomain.
  destruct (Js.truthy D) eqn:HD; [|discriminate].
  destruct (Js.truthy C) eqn:HC; [|discriminate].
  intros _. split; now apply truthy_true_iff.
Qed.

Lemma matchesDomain_refl (D : string) :
  D <> EmptyString -> matchesDomain D D = true.
Proof. intros HD. apply matchesDomain_spec; [assumption | now left]. Qed.

Lemma matchesDomain_trans (A B C : string) :
  matchesDomain A B = true -> matchesDomain B C = true ->
  matchesDomain A C = true.
Proof.
  intros HAB HBC.
  destruct (matchesDomain_nonempty _ _ HAB) as [_ HB].
  destruct (matchesDomain_nonempty _ _ HBC) as [_ HC].
  apply matchesDomain_spec in HAB; [|assumption].
  apply matchesDomain_spec in HBC; [|assumption].
  apply matchesDomain_spec; [assumption|].
  destruct HAB as [->|[p ->]]; [exact HBC|].
  destruct HBC as [->|[q ->]].
  - right. now exists p.
  - right. exists (p ++ "." ++ q). now rewrite !sappend_assoc.
Qed.

(** X9. Matching of domains is reflexive on non-empty domains and
    transitive: a subdomain of a subdomain of [C] matches [C]. *)
Theorem matchesDomain_preorder :
  (forall D, D <> EmptyString -> matchesDomain D D = true)
  /\ (forall A B C,
        matchesDomain A B = true -> matchesDomain B C = true ->
        matchesDomain A C = true).
Proof. split; [exact matchesDomain_refl | exact matchesDomain_trans]. Qed.

Lemma matchesDomain_preorder_witness :
  matchesDomain "a.mail.shopify.com" "shopify.com" = true.
Proof.
  apply (proj2 matchesDomain_preorder "a.mail.shopify.com"
           "mail.shopify.com" "shopify.com"); reflexivity.
Defined.

(** X10. The list of system domains covers every subdomain: when a sender
    domain is recognised, so is any domain obtained by putting labels and a
    dot in front of it. *)
Theorem systemDomain_subdomains (d p : string) :
  isSystemNotificationDomain d = true ->
  isSystemNotificationDomain (p ++ "." ++ d) = true.
Proof.
  unfold isSystemNotificationDomain. rewrite !existsb_exists.
  intros [C [HC Hm]]. exists C. split; [assumption|].
  apply matchesDomain_trans with d; [|assumption].
  destruct (matchesDomain_nonempty _ _ Hm) as [Hd _].
  apply matchesDomain_spec; [assumption|]. right. now exists p.
Qed.

Lemma systemDomain_subdomains_witness :
  isSystemNotificationDomain ("billing.eu" ++ "." ++ "stripe.com") = true.
Proof. apply systemDomain_subdomains. reflexivity. Defined.

Lemma includes_at_cons (c : ascii) (t : string) :
  Js.includes (String c t) "@" = (Ascii.eqb c "@" || Js.includes t "@").
Proof.
  rewrite includes_unfold. f_equal.
  change (String.prefix "@" (String c t))
    with (if ascii_dec "@" c then String.prefix EmptyString t else false).
  destruct (ascii_dec "@" c) as [<-|N].
  - now destruct t.
  - symmetry. apply Ascii.eqb_neq. congruence.
Qed.

Lemma split_local (local rest : string) :
  Js.includes local "@" = false ->
  Js.split "@" (local ++ String "@" rest) = local :: Js.split "@" rest.
Proof.
  induction local as [|c t IH]; intros H.
  - reflexivity.
  - rewrite includes_at_cons in H. apply orb_false_iff in H as [Hc Ht].
    simpl. rewrite Hc. now rewrite (IH Ht).
Qed.

Lemma split_plain (s : string) :
  Js.includes s "@" = false -> Js.split "@" s = [s].
Proof.
  induction s as [|c t IH]; intros H; [reflexivity|].
  rewrite includes_at_cons in H. apply orb_false_iff in H as [Hc Ht].
  simpl. rewrite Hc. now rewrite (IH Ht).
Qed.

Lemma split_pieces (s piece : string) :
  In piece (Js.split "@" s) -> Js.includes piece "@" = false.
Proof.
  revert piece. induction s as [|c t IH]; intros piece; simpl.
  - intros [<-|[]]. reflexivity.
  - destruct (Ascii.eqb c "@") eqn:Ec.
    + intros [<-|H]; [reflexivity | now apply IH].
    + destruct (Js.split "@" t) as [|h r] eqn:E.
      * intros [<-|[]]. rewrite includes_at_cons, Ec. reflexivity.
      * intros [<-|H].
        -- rewrite includes_at_cons, Ec. apply IH. now left.
        -- apply IH. now right.
Qed.

(** X11. The sender domain is the text between the first and the second
    ["@"] of the address: it is the part after the ["@"] of an ordinary
    address, anything after a second ["@"] is ignored, it never contains an
    ["@"], and it is empty for an address without ["@"]. *)
Theorem domainOf_pieces :
  (forall local d,
      Js.includes local "@" = false -> Js.includes d "@" = false ->
      domainOf (local ++ "@" ++ d) = d)
  /\ (forall local d rest,
      Js.includes local "@" = false -> Js.includes d "@" = false ->
      domainOf (local ++ "@" ++ d ++ "@" ++ rest) = d)
  /\ (forall s, Js.includes (domainOf s) "@" = false)
  /\ (forall s, Js.includes s "@" = false -> domainOf s = EmptyString).
Proof.
  assert (forall local x, Js.includes (local ++ String "@" x) "@" = true)
    as Hat.
  { intros local x. apply includes_iff. now exists local, x. }
  split; [|split; [|split]].
  - intros local d Hl Hd. unfold domainOf. simpl. rewrite Hat.
    rewrite (split_local _ _ Hl), (split_plain _ Hd). reflexivity.
  - intros local d rest Hl Hd. unfold domainOf. simpl. rewrite Hat.
    rewrite (split_local _ _ Hl), (split_local _ _ Hd). reflexivity.
  - intros s. unfold domainOf. destruct (Js.includes s "@"); [|reflexivity].
    destruct (nth_error (Js.split "@" s) 1) as [d|] eqn:E; [|reflexivity].
    simpl. apply split_pieces with s. now apply nth_error_In with 1%nat.
  - intros s H. unfold domainOf. now rewrite H.
Qed.

Lemma domainOf_pieces_witness :
  domainOf ("billing" ++ "@" ++ "shopify.com" ++ "@" ++ "evil.org")
  = "shopify.com".
Proof.
  apply (proj1 (proj2 domainOf_pieces)); reflexivity.
Defined.

(** ** The rule loop *)

(** The loop returns the first rule of the table that passes both tests. *)
Lemma firstRule_find rules senderEmail senderDomain subject :
  firstRule rules senderEmail senderDomain subject
  = find (ruleApplies senderEmail senderDomain subject) rules.
Proof.
  induction rules as [|r rules IH]; simpl; [reflexivity|].
  unfold ruleApplies at 1.
  destruct (negb (rule_matchAll r) && negb (ruleDomainMatch r senderDomain)
            && negb (ruleAddressMatch r senderEmail)); simpl; [exact IH|].
  destruct (ruleKeywordsMiss r subject); simpl; [exact IH | reflexivity].
Qed.

Lemma skip_rules_labels rule :
  In rule AUTO_SKIP_RULES ->
  Js.arrayIncludes CLASSIFICATIONS_TO_SKIP (rule_classification rule) = true.
Proof.
  intros H.
  assert (forallb (fun r => Js.arrayIncludes CLASSIFICATIONS_TO_SKIP
                              (rule_classification r)) AUTO_SKIP_RULES = true)
    as F by reflexivity.
  rewrite forallb_forall in F. now apply F.
Qed.

(** X12. An automatic reply is always caught by the auto-skip rules: for a
    message with a sender address whose lower-cased subject contains one of
    the auto-reply phrases, the rule loop returns a rule of the table, whose
    label belongs to the skip list, and unless an auto-flag rule matched
    first the cascade stops at that rule. *)
Theorem autoReply_always_skipped (email : Email) :
  lowerSender email <> EmptyString ->
  Js.includes (lowerSubject email) "automatic reply"
  || Js.includes (lowerSubject email) "auto reply"
  || Js.includes (lowerSubject email) "autoreply"
  || Js.includes (lowerSubject email) "out of office"
  || Js.includes (lowerSubject email) "out-of-office" = true ->
  exists rule,
    getAutoSkipRule email = Some rule
    /\ In rule AUTO_SKIP_RULES
    /\ Js.arrayIncludes CLASSIFICATIONS_TO_SKIP (rule_classification rule)
       = true
    /\ (getAutoFlagRule email = None -> ruleCascade email = ByAutoSkip rule).
Proof.
  intros Hs Hk.
  assert (exists rule, getAutoSkipRule email = Some rule) as [rule Hr].
  { unfold getAutoSkipRule. apply truthy_true_iff in Hs. rewrite Hs.
    cbn [negb]. rewrite firstRule_find.
    destruct (find _ AUTO_SKIP_RULES) as [r|] eqn:E; [now exists r|].
    exfalso.
    pose proof (find_none _ _ E (last AUTO_SKIP_RULES shopifyMailerAlerts))
      as Hn.
    assert (In (last AUTO_SKIP_RULES shopifyMailerAlerts) AUTO_SKIP_RULES)
      as Hin by (simpl; tauto).
    specialize (Hn Hin). revert Hn.
    unfold ruleApplies. cbn [last AUTO_SKIP_RULES skipRule rule_matchAll negb
      andb ruleKeywordsMiss rule_subjectKeywords existsb].
    rewrite negb_involutive.
    repeat rewrite orb_true_iff in Hk. repeat rewrite orb_false_r.
    intros Hn. repeat rewrite orb_false_iff in Hn.
    destruct Hn as (_ & H2 & H3 & H4 & H5 & H6).
    destruct Hk as [[[[H|H]|H]|H]|H]; congruence. }
  exists rule. split; [exact Hr|].
  assert (In rule AUTO_SKIP_RULES) as Hin.
  { unfold getAutoSkipRule in Hr.
    destruct (negb (Js.truthy (lowerSender email))); [discriminate|].
    now apply firstRule_In in Hr. }
  split; [exact Hin|]. split; [now apply skip_rules_labels|].
  intros Hf. unfold ruleCascade. now rewrite Hf, Hr.
Qed.

Lemma autoReply_always_skipped_witness :
  exists rule,
    getAutoSkipRule autoReplyMail = Some rule
    /\ rule_classification rule = "OUT_OF_OFFICE".
Proof.
  destruct (autoReply_always_skipped autoReplyMail) as [rule (Hr & _)].
  - discriminate.
  - reflexivity.
  - exists rule. split; [exact Hr|].
    assert (getAutoSkipRule autoReplyMail
            = Some (last AUTO_SKIP_RULES shopifyMailerAlerts)) as E
      by reflexivity.
    rewrite E in Hr. injection Hr as <-. reflexivity.
Defined.

(** ** One iteration as a decision table *)

Lemma classifyStage_noRule env mailbox email w :
  ruleCascade email = NoRule ->
  classifyStage env mailbox email w
  = (Returned
       (Proceed
          (aiVerdict
             (env_openai env email
                (getSenderHistory (env_senderStats env (processedEmails w))
                   (env_domainStats env (processedEmails w))
                   (lowerSender email))))
          (getSenderHistory (env_senderStats env (processedEmails w))
             (env_domainStats env (processedEmails w)) (lowerSender email))),
     withTrace [OpenAiCompletion (email_id email)] w).
Proof.
  intros Hd. rewrite classifyStage_cascade, Hd.
  unfold cascadeAction, bind, senderHistoryM, classifyEmail, bind, emit, ret.
  now destruct (env_openai env email _).
Qed.

Lemma discard_run env mailbox email row w :
  (markAsRead (email_id email) mailbox ;;
   updStats incDiscarded ;;
   insertProcessed env row ;;
   ret Continue) w
  = if insertable env (processedEmails w) row
    then (Returned Continue,
          withRow row
            (withStats incDiscarded
               (withTrace [GraphMarkRead mailbox (email_id email)] w)))
    else (Thrown,
          withStats incDiscarded
            (withTrace [GraphMarkRead mailbox (email_id email)] w)).
Proof.
  unfold bind at 1. unfold markAsRead, emit.
  unfold bind at 1. unfold updStats.
  unfold bind at 1. rewrite insertProcessed_run. cbn [processedEmails].
  now destruct (insertable env (processedEmails w) row).
Qed.

(** The loop body with its catch is the decision table. *)
Lemma forEmail_outcome env mailbox email w :
  forEmail env mailbox email w
  = (Returned tt, iterationOutcome env mailbox email w).
Proof.
  unfold iterationOutcome.
  destruct (env_selectFails env (email_id email)) eqn:Hs.
  { unfold forEmail, tryCatch, processEmail, bind, selectExisting.
    now rewrite Hs. }
  destruct (existsb (hasMessageId (email_id email)) (processedEmails w))
    eqn:He.
  { unfold forEmail, tryCatch. rewrite (processEmail_known _ _ _ _ He).
    now rewrite Hs. }
  destruct (ruleCascade email) as [rule|rule| | | | |] eqn:Hd.
  - assert (classifyStage env mailbox email w
            = (Returned (Proceed (JsonFields (autoFlagVerdict rule)) None), w))
      as Hc by now rewrite classifyStage_cascade, Hd.
    rewrite (forEmail_verdict _ _ _ _ _ _ _ Hs He Hc). cbv zeta.
    unfold verdictOutcome. cbn [app].
    now destruct (insertable _ _ _).
  - unfold forEmail, tryCatch. rewrite (processEmail_fresh _ _ _ _ Hs He).
    unfold bind at 1. rewrite classifyStage_cascade, Hd.
    unfold cascadeAction. rewrite discard_run. unfold discardOutcome.
    now destruct (insertable _ _ _).
  - assert (classifyStage env mailbox email w
            = (Returned (Proceed (JsonFields purchaseOrderVerdict) None), w))
      as Hc by now rewrite classifyStage_cascade, Hd.
    rewrite (forEmail_verdict _ _ _ _ _ _ _ Hs He Hc). cbv zeta.
    unfold verdictOutcome. cbn [app].
    now destruct (insertable _ _ _).
  - unfold forEmail, tryCatch. rewrite (processEmail_fresh _ _ _ _ Hs He).
    unfold bind at 1. rewrite classifyStage_cascade, Hd. reflexivity.
  - unfold forEmail, tryCatch. rewrite (processEmail_fresh _ _ _ _ Hs He).
    unfold bind at 1. rewrite classifyStage_cascade, Hd.
    unfold cascadeAction. rewrite discard_run. unfold discardOutcome.
    now destruct (insertable _ _ _).
  - unfold forEmail, tryCatch. rewrite (processEmail_fresh _ _ _ _ Hs He).
    unfold bind at 1. rewrite classifyStage_cascade, Hd.
    unfold cascadeAction. rewrite discard_run. unfold discardOutcome.
    now destruct (insertable _ _ _).
  - pose proof (classifyStage_noRule env mailbox email w Hd) as Hc.
    cbv zeta.
    destruct (aiVerdict _) as [|c] eqn:Hv.
    + unfold forEmail, tryCatch. rewrite (processEmail_fresh _ _ _ _ Hs He).
      unfold bind at 1. rewrite Hc.
      unfold actStage. unfold bind at 1. rewrite getThreadInfo_run.
      unfold verdictOutcome. now rewrite withTrace_app.
    + rewrite (forEmail_verdict _ _ _ _ _ _ _ Hs He Hc). cbv zeta.
      unfold verdictOutcome. rewrite withTrace_app.
      now destruct (insertable _ _ _).
Qed.

Lemma forEmail_snd env mailbox email w :
  snd (forEmail env mailbox email w) = iterationOutcome env mailbox email w.
Proof. now rewrite forEmail_outcome. Qed.

(** An iteration adds its requests and counts to those of the world. *)
Lemma iteration_frame env mailbox email w :
  trace (iterationOutcome env mailbox email w)
  = (trace w ++ iterationEffects env mailbox email w)%list
  /\ stats (iterationOutcome env mailbox email w)
     = addStats (stats w) (iterationCounts env mailbox email w).
Proof.
  unfold iterationEffects, iterationCounts.
  rewrite <- !forEmail_snd. rewrite (framed_forEmail env mailbox email w).
  split; reflexivity.
Qed.

(** ** What an iteration asks of the outside *)

(** Case analysis on every test of the decision table. *)
Ltac split_tests :=
  repeat match goal with
         | |- context [if ?b then _ else _] =>
             lazymatch b with
             | context [if _ then _ else _] => fail
             | context [match _ with _ => _ end] => fail
             | _ => destruct b eqn:?
             end
         | |- context [match ?x with _ => _ end] =>
             lazymatch x with
             | context [if _ then _ else _] => fail
             | context [match _ with _ => _ end] => fail
             | _ => destruct x eqn:?
             end
         end.

Ltac outcome_cases :=
  unfold iterationEffects, iterationCounts, iterationOutcome, discardOutcome,
    verdictOutcome; cbv zeta;
  cbn [reset processedEmails];
  split_tests;
  unfold actionEffects, actionCount, webhookEffects, threadEffects in *;
  split_tests;
  cbn [trace stats processedEmails processingStats withTrace withStats
       withRow reset app].

(** X13. An iteration only adds requests to those sent before, and among
    the ones it adds there is at most one write to the mailbox, a flag or a
    mark-read and never both; the full body is fetched exactly when the
    message is flagged; the AI is asked at most once; and the webhook is
    posted to at most once and only after a flag. *)
Theorem iteration_requests env mailbox email w :
  exists es,
    trace (snd (forEmail env mailbox email w)) = (trace w ++ es)%list
    /\ (count isFlagRequest es + count marksRead es <= 1)%nat
    /\ count isBodyFetch es = count isFlagRequest es
    /\ (count isAiCall es <= 1)%nat
    /\ (count postsWebhook es <= count isFlagRequest es)%nat.
Proof.
  exists (iterationEffects env mailbox email w).
  split; [rewrite forEmail_snd; apply iteration_frame|].
  outcome_cases; unfold count; simpl; repeat split; lia.
Qed.

(** X14. The AI is asked exactly for the messages that are new, whose
    lookup succeeded and that no rule decided: a completion request is among
    the requests an iteration adds if and only if the lookup did not fail,
    found no record, and the rule cascade ended without a rule. *)
Theorem ai_asked_iff_no_rule env mailbox email w :
  exists es,
    trace (snd (forEmail env mailbox email w)) = (trace w ++ es)%list
    /\ (existsb isAiCall es = true
        <-> env_selectFails env (email_id email) = false
            /\ existsb (hasMessageId (email_id email)) (processedEmails w)
               = false
            /\ ruleCascade email = NoRule).
Proof.
  exists (iterationEffects env mailbox email w).
  split; [rewrite forEmail_snd; apply iteration_frame|].
  outcome_cases; simpl; split; try discriminate; try (intros (? & ? & ?));
    try discriminate; try congruence; try (repeat split; congruence).
Qed.

Lemma ai_asked_iff_no_rule_witness :
  existsb isAiCall
    (trace (snd (forEmail (sampleEnv quoteAnswer) sales buyerMail
                   emptyWorld)))
  = true.
Proof.
  destruct (ai_asked_iff_no_rule (sampleEnv quoteAnswer) sales buyerMail
              emptyWorld) as (es & Ht & Hiff).
  rewrite Ht. apply Hiff. repeat split; reflexivity.
Defined.

(** ** Records written by an iteration *)

Lemma insertable_true env rows row :
  insertable env rows row = true ->
  env_insertFails env (pe_messageId row) = false
  /\ pe_classification row <> None
  /\ existsb (hasMessageId (pe_messageId row)) rows = false.
Proof.
  unfold insertable. rewrite !andb_true_iff, !negb_true_iff.
  intros [[H1 H2] H3]. repeat split; try assumption.
  intros E. now rewrite E in H2.
Qed.

(** An iteration leaves the table alone or appends one record, keyed by the
    id of the message. *)
Lemma iteration_rows env mailbox email w :
  let w' := iterationOutcome env mailbox email w in
  processingStats w' = processingStats w
  /\ (processedEmails w' = processedEmails w
      \/ (env_selectFails env (email_id email) = false
          /\ existsb (hasMessageId (email_id email)) (processedEmails w)
             = false
          /\ exists row,
               processedEmails w' = (processedEmails w ++ [row])%list
               /\ pe_messageId row = email_id email)).
Proof.
  cbv zeta. unfold iterationOutcome, discardOutcome, verdictOutcome.
  cbv zeta. split_tests;
    cbn [processingStats processedEmails withTrace withStats withRow];
    (split; [reflexivity|]); try (now left).
  all: right; repeat split; try assumption; eexists; split; reflexivity.
Qed.

Lemma hasMessageId_self row : hasMessageId (pe_messageId row) row = true.
Proof. unfold hasMessageId. apply String.eqb_refl. Qed.

(** X15. A record written for a message carries the id the lookup searches
    for.  When an iteration has added a record, a later iteration on a
    message with that id, in any mailbox and whatever the outside answers by
    then, sends no request and writes no row: it changes nothing when its
    lookup succeeds, and it only counts an error when its lookup fails. *)
Theorem recorded_message_is_recognised env mailbox email w :
  let w' := snd (forEmail env mailbox email w) in
  processedEmails w' <> processedEmails w ->
  existsb (hasMessageId (email_id email)) (processedEmails w') = true
  /\ (forall env' mailbox' email',
        email_id email' = email_id email ->
        forEmail env' mailbox' email' w'
        = (Returned tt,
           if env_selectFails env' (email_id email')
           then withStats incErrors w' else w')).
Proof.
  cbv zeta. rewrite forEmail_snd. intros Hne.
  destruct (iteration_rows env mailbox email w) as [_ [H|H]];
    [now destruct Hne|].
  destruct H as (_ & _ & row & Hrows & Hid).
  assert (existsb (hasMessageId (email_id email))
            (processedEmails (iterationOutcome env mailbox email w)) = true)
    as Hex.
  { rewrite Hrows, existsb_app. cbn [existsb].
    rewrite <- Hid, hasMessageId_self. now rewrite orb_true_r. }
  split; [exact Hex|].
  intros env' mailbox' email' Hsame. rewrite <- Hsame in Hex.
  unfold forEmail, tryCatch. rewrite (processEmail_known _ _ _ _ Hex).
  now destruct (env_selectFails env' (email_id email')).
Qed.

Lemma recorded_message_is_recognised_witness :
  forEmail (sampleEnv spamAnswer) "andre@alliancechemical.com" buyerMail
    firstRun
  = (Returned tt, firstRun).
Proof.
  apply (proj2 (recorded_message_is_recognised (sampleEnv quoteAnswer) sales
                  buyerMail emptyWorld
                  ltac:(intros H; vm_compute in H; discriminate H))
           (sampleEnv spamAnswer) "andre@alliancechemical.com" buyerMail
           eq_refl).
Defined.

Lemma forEmails_step env mailbox email rest w :
  snd (forEmails env mailbox (email :: rest) w)
  = snd (forEmails env mailbox rest (iterationOutcome env mailbox email w)).
Proof. now rewrite forEmails_cons, forEmail_snd. Qed.

Lemma ids_fresh (rows : list ProcessedEmail) (messageId : string) :
  existsb (hasMessageId messageId) rows = false ->
  ~ In messageId (map pe_messageId rows).
Proof.
  intros H Hin. apply in_map_iff in Hin as [r [Hr Hin]].
  assert (existsb (hasMessageId messageId) rows = true) as E.
  { apply existsb_exists. exists r. split; [assumption|].
    unfold hasMessageId. rewrite Hr. apply String.eqb_refl. }
  congruence.
Qed.

Lemma NoDup_snoc {A} (l : list A) (x : A) :
  NoDup l -> ~ In x l -> NoDup (l ++ [x]).
Proof.
  intros Hl Hx. induction Hl as [|y l Hy Hl IH]; simpl.
  - constructor; [intros [] | constructor].
  - constructor.
    + rewrite in_app_iff. intros [H|[H|[]]]; [contradiction|].
      subst. apply Hx. now left.
    + apply IH. intros H. apply Hx. now right.
Qed.

Lemma forEmails_rows env mailbox emails w :
  let w' := snd (forEmails env mailbox emails w) in
  processingStats w' = processingStats w
  /\ exists added,
       processedEmails w' = (processedEmails w ++ added)%list
       /\ (List.length added <= List.length emails)%nat
       /\ (forall row, In row added ->
             In (pe_messageId row) (map email_id emails))
       /\ (NoDup (map pe_messageId (processedEmails w)) ->
           NoDup (map pe_messageId (processedEmails w'))).
Proof.
  cbv zeta. revert w. induction emails as [|e rest IH]; intros w.
  - simpl. split; [reflexivity|]. exists []. rewrite app_nil_r.
    split; [reflexivity|]. split; [simpl; lia|].
    split; [intros row []|]. trivial.
  - rewrite forEmails_step.
    destruct (IH (iterationOutcome env mailbox e w))
      as (Hps & added & Hrows & Hlen & Hids & Hnd).
    destruct (iteration_rows env mailbox e w) as [Hps1 Hstep].
    split; [congruence|].
    destruct Hstep as [Hsame | (_ & Hfresh & row & Hrow & Hid)].
    + rewrite Hsame in Hrows, Hnd.
      exists added. split; [exact Hrows|]. split; [simpl; lia|].
      split; [|exact Hnd].
      intros r Hr. right. now apply Hids.
    + rewrite Hrow in Hrows, Hnd. rewrite <- app_assoc in Hrows.
      cbn [app] in Hrows.
      exists (row :: added). split; [exact Hrows|]. split; [simpl; lia|].
      split.
      * intros r [<-|Hr]; [left; now symmetry | right; now apply Hids].
      * intros H. apply Hnd. rewrite map_app. cbn [map].
        apply NoDup_snoc; [assumption|].
        rewrite Hid. now apply ids_fresh.
Qed.

(** X16. Over a whole batch the table of processed emails is append-only:
    the rows present before stay in place, at most one row is added per
    message of the batch, every added row carries the id of a message of the
    batch, the table of run statistics is not touched, and when the message
    ids were unique before they are unique afterwards. *)
Theorem batch_appends_unique_rows env mailbox emails w :
  let w' := snd (forEmails env mailbox emails w) in
  processingStats w' = processingStats w
  /\ exists added,
       processedEmails w' = (processedEmails w ++ added)%list
       /\ (List.length added <= List.length emails)%nat
       /\ (forall row, In row added ->
             In (pe_messageId row) (map email_id emails))
       /\ (NoDup (map pe_messageId (processedEmails w)) ->
           NoDup (map pe_messageId (processedEmails w'))).
Proof. exact (forEmails_rows env mailbox emails w). Qed.


Lemma batch_appends_unique_rows_witness :
  NoDup (map pe_messageId
           (processedEmails
              (snd (forEmails (sampleEnv quoteAnswer) sales
                      [buyerMail; shopifyMail] emptyWorld)))).
Proof.
  pose proof (batch_appends_unique_rows (sampleEnv quoteAnswer) sales
                [buyerMail; shopifyMail] emptyWorld) as H.
  cbv zeta in H. destruct H as (_ & added & _ & _ & _ & H).
  apply H. constructor.
Defined.

(** ** Counters *)

Lemma iteration_counts env mailbox email w :
  let d := iterationCounts env mailbox email w in
  (flagged d + discarded d + skipped d <= 1)%nat
  /\ (processed d + skipped d + errors d <= 1)%nat
  /\ (processed d <= flagged d + discarded d)%nat.
Proof.
  cbv zeta.
  unfold iterationCounts, iterationOutcome, discardOutcome, verdictOutcome;
    cbv zeta; cbn [reset processedEmails]; split_tests;
    unfold actionCount; split_tests;
    cbn [stats withTrace withStats withRow reset]; simpl;
    repeat split; lia.
Qed.

Lemma forEmails_counters env mailbox emails w :
  let s := stats w in
  let s' := stats (snd (forEmails env mailbox emails w)) in
  let n := List.length emails in
  (processed s <= processed s' /\ flagged s <= flagged s'
   /\ skipped s <= skipped s' /\ discarded s <= discarded s'
   /\ errors s <= errors s')%nat
  /\ (flagged s' + discarded s' + skipped s'
      <= flagged s + discarded s + skipped s + n)%nat
  /\ (processed s' + skipped s' + errors s'
      <= processed s + skipped s + errors s + n)%nat
  /\ (processed s' + flagged s + discarded s
      <= processed s + flagged s' + discarded s')%nat.
Proof.
  cbv zeta. revert w. induction emails as [|e rest IH]; intros w.
  - simpl. lia.
  - rewrite forEmails_step.
    specialize (IH (iterationOutcome env mailbox e w)).
    destruct (iteration_frame env mailbox e w) as [_ Hst].
    pose proof (iteration_counts env mailbox e w) as Hd. cbv zeta in Hd.
    rewrite Hst in IH. unfold addStats in IH.
    cbn [processed flagged skipped discarded errors] in IH.
    cbn [List.length]. lia.
Qed.

(** X17. The counters of a run are consistent with the batch: over any
    batch no counter decreases, the messages counted as flagged, discarded
    or skipped are at most as many as the messages of the batch, so are
    those counted as processed, skipped or failed, and every message
    counted as processed was also counted as flagged or discarded. *)
Theorem batch_counters env mailbox emails w :
  let s := stats w in
  let s' := stats (snd (forEmails env mailbox emails w)) in
  let n := List.length emails in
  (processed s <= processed s' /\ flagged s <= flagged s'
   /\ skipped s <= skipped s' /\ discarded s <= discarded s'
   /\ errors s <= errors s')%nat
  /\ (flagged s' + discarded s' + skipped s'
      <= flagged s + discarded s + skipped s + n)%nat
  /\ (processed s' + skipped s' + errors s'
      <= processed s + skipped s + errors s + n)%nat
  /\ (processed s' + flagged s + discarded s
      <= processed s + flagged s' + discarded s')%nat.
Proof. exact (forEmails_counters env mailbox emails w). Qed.

(** ** Completions that parse to null *)

(** X18. A completion that parses to [null] is not absorbed by the fallback
    verdict: after the completion request and the thread lookup the
    iteration throws, so the message is counted as an error and is neither
    flagged, marked read nor recorded. *)
Theorem null_completion_is_an_error env mailbox email w :
  env_selectFails env (email_id email) = false ->
  existsb (hasMessageId (email_id email)) (processedEmails w) = false ->
  ruleCascade email = NoRule ->
  env_openai env email
    (getSenderHistory (env_senderStats env (processedEmails w))
       (env_domainStats env (processedEmails w)) (lowerSender email))
  = JsonCompletion JsonNull ->
  fst (processEmail env mailbox email w) = Thrown
  /\ forEmail env mailbox email w
     = (Returned tt,
        withStats incErrors
          (withTrace ([OpenAiCompletion (email_id email)]
                      ++ threadEffects mailbox email) w)).
Proof.
  intros Hs He Hd Hai. split.
  - rewrite (processEmail_fresh _ _ _ _ Hs He). unfold bind at 1.
    rewrite (classifyStage_noRule _ _ _ _ Hd), Hai. cbn [aiVerdict].
    unfold actStage. unfold bind at 1. now rewrite getThreadInfo_run.
  - rewrite forEmail_outcome. unfold iterationOutcome.
    rewrite Hs, He, Hd. cbv zeta. now rewrite Hai.
Qed.

Lemma null_completion_is_an_error_witness :
  forEmail (sampleEnv nullAnswer) sales buyerMail emptyWorld
  = (Returned tt, mkWorld [] [] [OpenAiCompletion "m1"] (mkStats 0 0 0 0 1)).
Proof.
  exact (proj2 (null_completion_is_an_error (sampleEnv nullAnswer) sales
                  buyerMail emptyWorld eq_refl eq_refl eq_refl eq_refl)).
Defined.

(** ** Runs without faults *)

Section Healthy.

Variables (env : Env) (mailbox : string).

Hypothesis lookups : forall messageId, env_selectFails env messageId = false.
Hypothesis inserts : forall messageId, env_insertFails env messageId = false.
Hypothesis labelled :
  forall email sh, exists c l,
    aiVerdict (env_openai env email sh) = JsonFields c
    /\ cls_classification c = Some l.




End Healthy.



(** ** The webhook *)

Lemma actStage_webhook fails env mailbox email v sh w :
  actStage (withWebhookFails fails env) mailbox email v sh w
  = actStage env mailbox email v sh w.
Proof.
  destruct v as [|c]; [reflexivity|].
  rewrite !actStage_run. reflexivity.
Qed.

(** X20. Within one iteration, whether the webhook answers or fails makes no
    difference to what the handler does: the body of the [try] ends the same
    way, so a failed webhook never turns the iteration into an error, and
    the record, every counter and the requests sent are the same.  (The
    sender history of the iteration is read before the webhook is posted
    to; what the endpoint stores on an answered request lies outside the
    handler and can only matter to later iterations.) *)
Theorem webhook_failure_is_swallowed fails env mailbox email w :
  processEmail (withWebhookFails fails env) mailbox email w
  = processEmail env mailbox email w
  /\ forEmail (withWebhookFails fails env) mailbox email w
     = forEmail env mailbox email w.
Proof.
  assert (processEmail (withWebhookFails fails env) mailbox email w
          = processEmail env mailbox email w) as H.
  { unfold processEmail, bind.
    change (selectExisting (withWebhookFails fails env) (email_id email) w)
      with (selectExisting env (email_id email) w).
    destruct (selectExisting env (email_id email) w) as [[existing|] w1];
      [|reflexivity].
    destruct (0 <? List.length existing)%nat; [reflexivity|].
    change (classifyStage (withWebhookFails fails env) mailbox email w1)
      with (classifyStage env mailbox email w1).
    destruct (classifyStage env mailbox email w1) as [[[|v sh]|] w2];
      try reflexivity.
    apply actStage_webhook. }
  split; [exact H|].
  unfold forEmail, tryCatch. now rewrite H.
Qed.

(** ** A whole run *)












